(** * terraform-provider-clickhouse-schema: the table resource

    A shallow embedding of [internal/provider/table_resource.go] (the
    revision with schema validation in [Read] and a working [ImportState])
    and the properties of its reconciliation logic: DDL synthesis, the
    metadata reader, the schema comparison and the lifecycle operations.

    Go strings are byte strings and are modelled by [string]; the
    [map[string]ColumnInfo] of the reader is a [gmap string ColumnInfo];
    the calls made on the [*sql.DB] client are recorded in a trace. *)

From Stdlib Require Import Ascii String List.
From stdpp Require Import base decidable option list strings gmap fin_maps
  sorting pretty.

Local Open Scope string_scope.
Local Open Scope list_scope.

(** ** The functions of Go's [strings] package the provider calls *)

Module strings.

(** [strings.Split(s, sep)] for a separator of one byte (the provider
    splits on "." and on ","): the pieces between the occurrences of
    [sep]; always at least one piece. *)
Fixpoint Split (s : string) (sep : ascii) : list string :=
  match s with
  | EmptyString => [EmptyString]
  | String c rest =>
      if decide (c = sep) then EmptyString :: Split rest sep
      else match Split rest sep with
           | [] => [String c EmptyString]
           | piece :: pieces => String c piece :: pieces
           end
  end.

(** [strings.Join(elems, sep)] *)
Fixpoint Join (elems : list string) (sep : string) : string :=
  match elems with
  | [] => EmptyString
  | [e] => e
  | e :: rest => e +:+ sep +:+ Join rest sep
  end.

(** Membership of a byte in a cutset. *)
Fixpoint inCutset (c : ascii) (cutset : string) : bool :=
  match cutset with
  | EmptyString => false
  | String d rest => if decide (c = d) then true else inCutset c rest
  end.

(** [strings.TrimLeft(s, cutset)] for an ASCII cutset. *)
Fixpoint TrimLeft (s cutset : string) : string :=
  match s with
  | EmptyString => EmptyString
  | String c rest => if inCutset c cutset then TrimLeft rest cutset else s
  end.

(** [strings.TrimRight(s, cutset)] for an ASCII cutset. *)
Fixpoint TrimRight (s cutset : string) : string :=
  match s with
  | EmptyString => EmptyString
  | String c rest =>
      match TrimRight rest cutset with
      | EmptyString => if inCutset c cutset then EmptyString
                       else String c EmptyString
      | kept => String c kept
      end
  end.

(** [strings.Trim(s, cutset)]: every leading and every trailing byte that
    is in [cutset] is removed. *)
Definition Trim (s cutset : string) : string :=
  TrimLeft (TrimRight s cutset) cutset.

(** [strings.HasPrefix(s, prefix)] *)
Definition HasPrefix (s prefix : string) : bool := String.prefix prefix s.

(** The UTF-8 encodings of the code points with Unicode's White_Space
    property, the runes for which [unicode.IsSpace] holds: the six ASCII
    ones, U+0085, U+00A0, U+1680, U+2000..U+200A, U+2028, U+2029, U+202F,
    U+205F and U+3000. *)
Definition bytes (l : list nat) : string :=
  string_of_list_ascii (List.map ascii_of_nat l).

Definition spaceRunes : list string :=
  List.map bytes
    [ [9]; [10]; [11]; [12]; [13]; [32];
      [194; 133]; [194; 160];
      [225; 154; 128];
      [226; 128; 128]; [226; 128; 129]; [226; 128; 130]; [226; 128; 131];
      [226; 128; 132]; [226; 128; 133]; [226; 128; 134]; [226; 128; 135];
      [226; 128; 136]; [226; 128; 137]; [226; 128; 138];
      [226; 128; 168]; [226; 128; 169]; [226; 128; 175];
      [226; 129; 159];
      [227; 128; 128] ].

(** The rest of [s] after one of [runes] at its head, if there is one. *)
Fixpoint dropRune (runes : list string) (s : string) : option string :=
  match runes with
  | [] => None
  | r :: rest =>
      if String.prefix r s
      then Some (String.substring (String.length r)
                   (String.length s - String.length r) s)
      else dropRune rest s
  end.

Definition rev (s : string) : string :=
  string_of_list_ascii (List.rev (list_ascii_of_string s)).

Fixpoint trimLeftRunes (runes : list string) (fuel : nat) (s : string)
  : string :=
  match fuel with
  | O => s
  | S fuel' =>
      match dropRune runes s with
      | Some rest => trimLeftRunes runes fuel' rest
      | None => s
      end
  end.

(** [strings.TrimLeftFunc(s, unicode.IsSpace)]: the runes are decoded
    from the head, and the head decodes to a space exactly when the
    string starts with the encoding of one.  The number of runes removed
    is at most [String.length s]. *)
Definition trimLeftSpace (s : string) : string :=
  trimLeftRunes spaceRunes (String.length s) s.

(** [strings.TrimRightFunc(s, unicode.IsSpace)]: the last rune of a string
    is a space exactly when the string ends with the encoding of one; the
    loop runs on the reversed bytes. *)
Definition trimRightSpace (s : string) : string :=
  rev (trimLeftRunes (List.map rev spaceRunes) (String.length s) (rev s)).

(** [strings.TrimSpace(s)] *)
Definition TrimSpace (s : string) : string :=
  trimRightSpace (trimLeftSpace s).

End strings.

(** ** The framework's values and diagnostics *)

Module types.

(** [types.String] of terraform-plugin-framework: null, unknown or a
    known value. *)
Inductive String : Type :=
| StringNull
| StringUnknown
| StringValue (s : string).

Definition IsNull (v : String) : bool :=
  match v with StringNull => true | _ => false end.

Definition IsUnknown (v : String) : bool :=
  match v with StringUnknown => true | _ => false end.

(** [ValueString] is the empty string for a null or unknown value. *)
Definition ValueString (v : String) : string :=
  match v with StringValue s => s | _ => EmptyString end.

End types.

Module diag.

Inductive Severity : Type := SeverityError | SeverityWarning.

Record Diagnostic : Type := mkDiagnostic {
  Severity_ : Severity;
  Summary : string;
  Detail : string
}.

Definition Diagnostics : Type := list Diagnostic.

Definition isError (d : Diagnostic) : bool :=
  match Severity_ d with SeverityError => true | SeverityWarning => false end.

Definition HasError (ds : Diagnostics) : bool := existsb isError ds.

Definition ErrorDiagnostic (summary detail : string) : Diagnostic :=
  mkDiagnostic SeverityError summary detail.

Definition AddError (ds : Diagnostics) (summary detail : string)
  : Diagnostics :=
  ds ++ [ErrorDiagnostic summary detail].

Definition Append (ds new : Diagnostics) : Diagnostics := ds ++ new.

End diag.

(** ** The resource's data model *)

Record ColumnModel : Type := mkColumnModel {
  cm_Name : types.String;
  cm_Type : types.String;
  cm_Comment : types.String
}.

Record TableResourceModel : Type := mkTableResourceModel {
  ID : types.String;
  Name : types.String;
  Database : types.String;
  Engine : types.String;
  Columns : list ColumnModel;
  OrderBy : list types.String
}.

(** [ColumnInfo]: a column as the live system reports it. *)
Record ColumnInfo : Type := mkColumnInfo {
  ci_Name : string;
  ci_Type : string;
  ci_Comment : string
}.

(** ** DDL synthesis *)

(** The loop over [data.Columns]; [i] is the index of the head of [cols]. *)
Fixpoint columnsSQL (i : nat) (cols : list ColumnModel) (sql : string)
  : string :=
  match cols with
  | [] => sql
  | col :: rest =>
      let sql := if decide (0 < i) then sql +:+ ",
" else sql in
      let sql := sql +:+ "    " +:+ types.ValueString (cm_Name col) +:+ " "
                     +:+ types.ValueString (cm_Type col) in
      let sql :=
        if negb (types.IsNull (cm_Comment col))
           && negb (types.IsUnknown (cm_Comment col))
        then sql +:+ " COMMENT '" +:+ types.ValueString (cm_Comment col)
                 +:+ "'"
        else sql in
      columnsSQL (S i) rest sql
  end.

(** The loop over [data.OrderBy]. *)
Fixpoint orderBySQL (i : nat) (keys : list types.String) (sql : string)
  : string :=
  match keys with
  | [] => sql
  | orderCol :: rest =>
      let sql := if decide (0 < i) then sql +:+ ", " else sql in
      orderBySQL (S i) rest (sql +:+ types.ValueString orderCol)
  end.

Definition generateCreateTableSQL (data : TableResourceModel) : string :=
  let sql := "CREATE TABLE " +:+ types.ValueString (Database data) +:+ "."
             +:+ types.ValueString (Name data) +:+ " (
" in
  let sql := columnsSQL 0 (Columns data) sql in
  let sql := sql +:+ "
) ENGINE = " +:+ types.ValueString (Engine data) in
  if decide (0 < length (OrderBy data))
  then orderBySQL 0 (OrderBy data) (sql +:+ "
ORDER BY (") +:+ ")"
  else sql.

(** [DROP TABLE] statement of [Delete]. *)
Definition dropTableSQL (data : TableResourceModel) : string :=
  "DROP TABLE IF EXISTS " +:+ types.ValueString (Database data) +:+ "."
  +:+ types.ValueString (Name data).

Definition sv (s : string) : types.String := types.StringValue s.

Definition events_absent_comment : TableResourceModel :=
  {| ID := types.StringUnknown;
     Name := sv "events";
     Database := sv "default";
     Engine := sv "MergeTree";
     Columns := [ mkColumnModel (sv "id") (sv "UInt64") (sv "pk");
                  mkColumnModel (sv "ts") (sv "DateTime") types.StringNull ];
     OrderBy := [sv "id"] |}.

Definition events_empty_comment : TableResourceModel :=
  {| ID := types.StringUnknown;
     Name := sv "events";
     Database := sv "default";
     Engine := sv "MergeTree";
     Columns := [ mkColumnModel (sv "id") (sv "UInt64") (sv "pk");
                  mkColumnModel (sv "ts") (sv "DateTime") (sv "") ];
     OrderBy := [sv "id"] |}.

Definition events_sql : string :=
  "CREATE TABLE default.events (
    id UInt64 COMMENT 'pk',
    ts DateTime
) ENGINE = MergeTree
ORDER BY (id)".

(** ** The database client

    The provider reads [system.tables] and [system.columns] through a
    [*sql.DB].  The client is modelled by the rows of the two system tables
    and by the failure, if any, with which each call is answered: the error
    of the query, of the scan of a row or of the iteration, which the
    provider's functions all return as their error.  The context argument
    (cancellation) and the [tflog] calls are left out. *)

Inductive error : Type :=
| sql_ErrNoRows
| errorString (msg : string).

Definition Error (err : error) : string :=
  match err with
  | sql_ErrNoRows => "sql: no rows in result set"
  | errorString msg => msg
  end.

(** [errors.Is(err, sql.ErrNoRows)] *)
Definition is_ErrNoRows (err : error) : bool :=
  match err with sql_ErrNoRows => true | errorString _ => false end.

(** A Go result pair [(value, err)]: the value when [err == nil]. *)
Inductive result (A : Type) : Type :=
| Ok (a : A)
| Err (err : error).
Arguments Ok {A} a.
Arguments Err {A} err.

(** [sql.NullString]: [None] is SQL's NULL ([Valid == false]). *)
Definition NullString : Type := option string.
Definition NullString_String (v : NullString) : string := default "" v.
Definition NullString_Valid (v : NullString) : bool := bool_decide (is_Some v).

Record TableRow : Type := mkTableRow {
  tr_database : string;
  tr_name : string;
  tr_engine : string;
  tr_sorting_key : NullString
}.

Record ColumnRow : Type := mkColumnRow {
  cr_database : string;
  cr_table : string;
  cr_name : string;
  cr_type : string;
  cr_comment : NullString;
  cr_position : nat
}.

(** The calls the provider makes on the client:
    - [SelectEngine]: [SELECT engine FROM system.tables
       WHERE database = ? AND name = ?];
    - [SelectColumns]: [SELECT name, type, comment FROM system.columns
       WHERE database = ? AND table = ? ORDER BY position];
    - [SelectSortingKey]: [SELECT sorting_key FROM system.tables
       WHERE database = ? AND name = ?];
    - [Exec]: [ExecContext] of a DDL statement. *)
Inductive Call : Type :=
| SelectEngine (database tableName : string)
| SelectColumns (database tableName : string)
| SelectSortingKey (database tableName : string)
| Exec (sql : string).

Record sql_DB : Type := mkDB {
  system_tables : list TableRow;
  system_columns : list ColumnRow;
  failure : Call -> option string
}.

Record TableResource : Type := mkTableResource { client : sql_DB }.

(** Computations that call the client: the value and the calls made, in
    order. *)
Definition IO (A : Type) : Type := A * list Call.

Definition ret {A} (a : A) : IO A := (a, []).

Definition bind {A B} (m : IO A) (k : A -> IO B) : IO B :=
  let '(a, t1) := m in
  let '(b, t2) := k a in
  (b, t1 ++ t2).

Notation "'do' x <- m ; k" := (bind m (fun x => k))
  (at level 10, x name, m at level 100, k at level 200).

Definition call {A} (db : sql_DB) (c : Call) (answer : result A)
  : IO (result A) :=
  (match failure db c with
   | Some msg => Err (errorString msg)
   | None => answer
   end, [c]).

Definition tableRows (db : sql_DB) (database tableName : string)
  : list TableRow :=
  List.filter
    (fun row => bool_decide (tr_database row = database)
                && bool_decide (tr_name row = tableName))
    (system_tables db).

(** [ORDER BY position] *)
Definition positionLe (a b : ColumnRow) : Prop :=
  cr_position a <= cr_position b.

#[global] Instance positionLe_dec : RelDecision positionLe :=
  fun a b => decide (cr_position a <= cr_position b).

Definition byPosition (rows : list ColumnRow) : list ColumnRow :=
  merge_sort positionLe rows.

Definition columnRows (db : sql_DB) (database tableName : string)
  : list ColumnRow :=
  byPosition
    (List.filter
       (fun row => bool_decide (cr_database row = database)
                   && bool_decide (cr_table row = tableName))
       (system_columns db)).

(** [QueryRowContext(ctx, tableQuery, database, tableName).Scan(&engine)]:
    the first row, [sql.ErrNoRows] when there is none. *)
Definition queryEngine (db : sql_DB) (database tableName : string)
  : IO (result string) :=
  call db (SelectEngine database tableName)
    match tableRows db database tableName with
    | [] => Err sql_ErrNoRows
    | row :: _ => Ok (tr_engine row)
    end.

Definition querySortingKey (db : sql_DB) (database tableName : string)
  : IO (result NullString) :=
  call db (SelectSortingKey database tableName)
    match tableRows db database tableName with
    | [] => Err sql_ErrNoRows
    | row :: _ => Ok (tr_sorting_key row)
    end.

Definition queryColumns (db : sql_DB) (database tableName : string)
  : IO (result (list ColumnRow)) :=
  call db (SelectColumns database tableName)
    (Ok (columnRows db database tableName)).

(** ** The metadata reader *)

(** The loop of [getTableColumns] over the rows: [columns[name] = ...]. *)
Definition columnInfoOf (row : ColumnRow) : ColumnInfo :=
  {| ci_Name := cr_name row;
     ci_Type := cr_type row;
     ci_Comment := NullString_String (cr_comment row) |}.

Definition columnsOf (rows : list ColumnRow) : gmap string ColumnInfo :=
  foldl
    (fun (columns : gmap string ColumnInfo) row =>
       <[cr_name row := columnInfoOf row]> columns)
    ∅ rows.

(** [getTableColumns]: the rows are stored in a map keyed by column name,
    in the order the query returns them. *)
Definition getTableColumns (r : TableResource) (database tableName : string)
  : IO (result (gmap string ColumnInfo)) :=
  do rows <- queryColumns (client r) database tableName;
  match rows with
  | Err err => ret (Err err)
  | Ok rows => ret (Ok (columnsOf rows))
  end.

(** The parsing step of [getTableOrderBy], from the scanned sorting key to
    the list of columns. *)
Definition parseSortingKey (sortingKey : NullString) : list string :=
  if negb (NullString_Valid sortingKey)
     || bool_decide (NullString_String sortingKey = "")
  then []
  else
    let orderBy := strings.Trim (NullString_String sortingKey) "()" in
    if decide (orderBy = "") then []
    else List.map strings.TrimSpace (strings.Split orderBy ",").

Definition getTableOrderBy (r : TableResource) (database tableName : string)
  : IO (result (list string)) :=
  do sortingKey <- querySortingKey (client r) database tableName;
  match sortingKey with
  | Err err => ret (Err err)
  | Ok sortingKey => ret (Ok (parseSortingKey sortingKey))
  end.

(** ** The schema comparison *)

(** The loop of [validateColumns] over the expected columns. *)
Fixpoint validateEachColumn (expectedCols : list ColumnModel)
    (actualCols : gmap string ColumnInfo) : option error :=
  match expectedCols with
  | [] => None
  | expected :: rest =>
      let name := types.ValueString (cm_Name expected) in
      match actualCols !! name with
      | None =>
          Some (errorString ("column '" +:+ name +:+ "' not found in table"))
      | Some actual =>
          if decide (ci_Type actual <> types.ValueString (cm_Type expected))
          then Some (errorString
                       ("column '" +:+ name +:+ "': expected type '"
                        +:+ types.ValueString (cm_Type expected)
                        +:+ "', found type '" +:+ ci_Type actual +:+ "'"))
          else
            let expectedComment :=
              if negb (types.IsNull (cm_Comment expected))
                 && negb (types.IsUnknown (cm_Comment expected))
              then types.ValueString (cm_Comment expected)
              else "" in
            if decide (ci_Comment actual <> expectedComment)
            then Some (errorString
                         ("column '" +:+ name +:+ "': expected comment '"
                          +:+ expectedComment +:+ "', found comment '"
                          +:+ ci_Comment actual +:+ "'"))
            else validateEachColumn rest actualCols
      end
  end.

Definition validateColumns (expectedCols : list ColumnModel)
    (actualCols : gmap string ColumnInfo) : option error :=
  if decide (length expectedCols <> size actualCols)
  then Some (errorString
               ("expected " +:+ pretty (length expectedCols)
                +:+ " columns, found " +:+ pretty (size actualCols)
                +:+ " columns"))
  else validateEachColumn expectedCols actualCols.

(** The error of [validateOrderBy] for the column at index [i]:
    ["ORDER BY column %d: expected '%s', found '%s'"] with [i+1]. *)
Definition orderByColumnError (i : nat) (expectedCol actualCol : string)
  : error :=
  errorString
    ("ORDER BY column " +:+ pretty (i + 1) +:+ ": expected '" +:+ expectedCol
     +:+ "', found '" +:+ actualCol +:+ "'").

(** The positional loop of [validateOrderBy]; [i] is the index of the head
    of [expectedStrs].  The length check before the loop keeps [actual[i]]
    in range; out of range Go panics, which is the [panic] message here. *)
Fixpoint validateEachOrderBy (i : nat) (expectedStrs actual : list string)
  : option error :=
  match expectedStrs with
  | [] => None
  | expectedCol :: rest =>
      match actual !! i with
      | None => Some (errorString "panic: runtime error: index out of range")
      | Some actualCol =>
          if decide (expectedCol <> actualCol)
          then Some (orderByColumnError i expectedCol actualCol)
          else validateEachOrderBy (S i) rest actual
      end
  end.

Definition validateOrderBy (expected : list types.String)
    (actual : list string) : option error :=
  let expectedStrs := List.map types.ValueString expected in
  if decide (length expectedStrs <> length actual)
  then Some (errorString
               ("expected ORDER BY with " +:+ pretty (length expectedStrs)
                +:+ " columns, found " +:+ pretty (length actual)
                +:+ " columns"))
  else validateEachOrderBy 0 expectedStrs actual.

Definition mergeTreeEngines : list string :=
  [ "MergeTree"; "ReplacingMergeTree"; "SummingMergeTree";
    "AggregatingMergeTree"; "CollapsingMergeTree";
    "VersionedCollapsingMergeTree"; "GraphiteMergeTree" ].

Definition isMergeTreeFamily (engine : string) : bool :=
  existsb (fun mt => strings.HasPrefix engine mt) mergeTreeEngines.

(** ** The lifecycle operations

    A request carries what the framework's [Get] yields for its plan or
    state: the decoded model and the diagnostics of the decoding.  A
    response is the value the operation updates in place: its diagnostics
    and its state ([None] once [RemoveResource] was called). *)

Record tfsdk_Data : Type := mkData {
  Get_data : TableResourceModel;
  Get_diags : diag.Diagnostics
}.

Record Response : Type := mkResponse {
  Diagnostics : diag.Diagnostics;
  State : option TableResourceModel
}.

Definition AppendDiags (resp : Response) (ds : diag.Diagnostics) : Response :=
  {| Diagnostics := diag.Append (Diagnostics resp) ds; State := State resp |}.

Definition AddError (resp : Response) (summary detail : string) : Response :=
  {| Diagnostics := diag.AddError (Diagnostics resp) summary detail;
     State := State resp |}.

(** [resp.State.Set(ctx, &data)] *)
Definition State_Set (resp : Response) (data : TableResourceModel)
  : Response :=
  {| Diagnostics := Diagnostics resp; State := Some data |}.

(** [resp.State.RemoveResource(ctx)] *)
Definition State_RemoveResource (resp : Response) : Response :=
  {| Diagnostics := Diagnostics resp; State := None |}.

Record CreateRequest : Type := mkCreateRequest { create_Plan : tfsdk_Data }.
Record ReadRequest : Type := mkReadRequest { read_State : tfsdk_Data }.
Record UpdateRequest : Type := mkUpdateRequest { update_Plan : tfsdk_Data }.
Record DeleteRequest : Type := mkDeleteRequest { delete_State : tfsdk_Data }.
Record ImportStateRequest : Type := mkImportStateRequest { import_ID : string }.

Definition withDatabase (data : TableResourceModel) (db : types.String)
  : TableResourceModel :=
  {| ID := ID data; Name := Name data; Database := db; Engine := Engine data;
     Columns := Columns data; OrderBy := OrderBy data |}.

Definition withID (data : TableResourceModel) (id : types.String)
  : TableResourceModel :=
  {| ID := id; Name := Name data; Database := Database data;
     Engine := Engine data; Columns := Columns data;
     OrderBy := OrderBy data |}.

(** [ExecContext(ctx, sql)] *)
Definition execContext (db : sql_DB) (sql : string) : IO (option error) :=
  (errorString <$> failure db (Exec sql), [Exec sql]).

Definition Create (r : TableResource) (req : CreateRequest) (resp : Response)
  : IO Response :=
  let data := Get_data (create_Plan req) in
  let resp := AppendDiags resp (Get_diags (create_Plan req)) in
  if diag.HasError (Diagnostics resp) then ret resp
  else
    let data :=
      if types.IsNull (Database data) || types.IsUnknown (Database data)
      then withDatabase data (types.StringValue "default")
      else data in
    let createSQL := generateCreateTableSQL data in
    do err <- execContext (client r) createSQL;
    match err with
    | Some err =>
        ret (AddError resp "Error creating table"
               ("Could not create table "
                +:+ types.ValueString (Database data) +:+ "."
                +:+ types.ValueString (Name data) +:+ ": " +:+ Error err))
    | None =>
        let data :=
          withID data
            (types.StringValue
               (types.ValueString (Database data) +:+ "."
                +:+ types.ValueString (Name data))) in
        ret (State_Set resp data)
    end.

Definition Read (r : TableResource) (req : ReadRequest) (resp : Response)
  : IO Response :=
  let data := Get_data (read_State req) in
  let resp := AppendDiags resp (Get_diags (read_State req)) in
  if diag.HasError (Diagnostics resp) then ret resp
  else
    match strings.Split (types.ValueString (ID data)) "." with
    | [database; tableName] =>
        do engine <- queryEngine (client r) database tableName;
        match engine with
        | Err err =>
            if is_ErrNoRows err then ret (State_RemoveResource resp)
            else
              ret (AddError resp "Error checking table existence"
                     ("Could not check if table "
                      +:+ types.ValueString (ID data) +:+ " exists: "
                      +:+ Error err))
        | Ok actualEngine =>
            if decide (actualEngine <> types.ValueString (Engine data))
            then
              ret (AddError resp "Table engine mismatch"
                     ("Expected engine '"
                      +:+ types.ValueString (Engine data)
                      +:+ "', but table has engine '" +:+ actualEngine
                      +:+ "'"))
            else
              do actualColumns <- getTableColumns r database tableName;
              match actualColumns with
              | Err err =>
                  ret (AddError resp "Error reading table schema"
                         ("Could not read schema for table "
                          +:+ types.ValueString (ID data) +:+ ": "
                          +:+ Error err))
              | Ok actualColumns =>
                  match validateColumns (Columns data) actualColumns with
                  | Some err =>
                      ret (AddError resp "Table schema mismatch"
                             ("Table schema does not match configuration: "
                              +:+ Error err))
                  | None =>
                      if isMergeTreeFamily actualEngine
                      then
                        do actualOrderBy <-
                          getTableOrderBy r database tableName;
                        match actualOrderBy with
                        | Err err =>
                            ret (AddError resp "Error reading table ORDER BY"
                                   ("Could not read ORDER BY for table "
                                    +:+ types.ValueString (ID data) +:+ ": "
                                    +:+ Error err))
                        | Ok actualOrderBy =>
                            match validateOrderBy (OrderBy data)
                                    actualOrderBy with
                            | Some err =>
                                ret (AddError resp "Table ORDER BY mismatch"
                                       ("Table ORDER BY does not match configuration: "
                                        +:+ Error err))
                            | None => ret (State_Set resp data)
                            end
                        end
                      else ret (State_Set resp data)
                  end
              end
        end
    | _ =>
        ret (AddError resp "Invalid table ID"
               ("Expected format 'database.table', got: "
                +:+ types.ValueString (ID data)))
    end.

Definition Update (r : TableResource) (req : UpdateRequest) (resp : Response)
  : IO Response :=
  let resp := AppendDiags resp (Get_diags (update_Plan req)) in
  if diag.HasError (Diagnostics resp) then ret resp
  else ret (AddError resp "Update is not implemented"
              "Update is not implemented").

Definition Delete (r : TableResource) (req : DeleteRequest) (resp : Response)
  : IO Response :=
  let data := Get_data (delete_State req) in
  let resp := AppendDiags resp (Get_diags (delete_State req)) in
  if diag.HasError (Diagnostics resp) then ret resp
  else
    do err <- execContext (client r) (dropTableSQL data);
    match err with
    | Some err =>
        ret (AddError resp "Error dropping table"
               ("Could not drop table " +:+ types.ValueString (ID data)
                +:+ ": " +:+ Error err))
    | None => ret resp
    end.

(** Go leaves the order of a [range] over a map unspecified: the order in
    which [ImportState] meets the values of the columns map belongs to the
    run, and is an argument here.  A [MapRange] is admissible when it
    enumerates each map's entries once each. *)
Definition MapRange : Type :=
  gmap string ColumnInfo -> list (string * ColumnInfo).

Definition admissible (range : MapRange) : Prop :=
  forall m, range m ≡ₚ map_to_list m.

Definition columnModelOf (col : ColumnInfo) : ColumnModel :=
  {| cm_Name := types.StringValue (ci_Name col);
     cm_Type := types.StringValue (ci_Type col);
     cm_Comment :=
       if decide (ci_Comment col <> "")
       then types.StringValue (ci_Comment col)
       else types.StringNull |}.

Definition ImportState (range : MapRange) (r : TableResource)
    (req : ImportStateRequest) (resp : Response) : IO Response :=
  match strings.Split (import_ID req) "." with
  | [database; tableName] =>
      if bool_decide (database = "") || bool_decide (tableName = "")
      then
        ret (AddError resp "Invalid import identifier"
               "Database and table names cannot be empty")
      else
        do engine <- queryEngine (client r) database tableName;
        match engine with
        | Err err =>
            if is_ErrNoRows err
            then
              ret (AddError resp "Table not found"
                     ("Table " +:+ database +:+ "." +:+ tableName
                      +:+ " does not exist in ClickHouse"))
            else
              ret (AddError resp "Error checking table existence"
                     ("Could not check if table " +:+ database +:+ "."
                      +:+ tableName +:+ " exists: " +:+ Error err))
        | Ok engine =>
            do columns <- getTableColumns r database tableName;
            match columns with
            | Err err =>
                ret (AddError resp "Error reading table schema"
                       ("Could not read schema for table " +:+ database
                        +:+ "." +:+ tableName +:+ ": " +:+ Error err))
            | Ok columns =>
                let columnModels :=
                  List.map (fun kv => columnModelOf (snd kv))
                    (range columns) in
                let finish (orderBy : list types.String) :=
                  State_Set resp
                    {| ID := types.StringValue (import_ID req);
                       Name := types.StringValue tableName;
                       Database := types.StringValue database;
                       Engine := types.StringValue engine;
                       Columns := columnModels;
                       OrderBy := orderBy |} in
                if isMergeTreeFamily engine
                then
                  do orderByColumns <- getTableOrderBy r database tableName;
                  match orderByColumns with
                  | Err err =>
                      ret (AddError resp "Error reading table ORDER BY"
                             ("Could not read ORDER BY for table "
                              +:+ database +:+ "." +:+ tableName +:+ ": "
                              +:+ Error err))
                  | Ok orderByColumns =>
                      ret (finish
                             (List.map types.StringValue orderByColumns))
                  end
                else ret (finish [])
            end
        end
  | _ =>
      ret (AddError resp "Invalid import identifier"
             ("Expected format 'database.table', got: " +:+ import_ID req))
  end.

(** ** The comparison of [Read] as a function of the observed table

    [Read] interleaves its checks with the queries.  [ActualTable] collects
    what the queries return for one table, and [compare] is the sequence of
    checks [Read] makes on it: the engine, [validateColumns] and, for an
    engine of the MergeTree family, [validateOrderBy]. *)

Record ActualTable : Type := mkActualTable {
  at_engine : string;
  at_columns : gmap string ColumnInfo;
  at_orderKey : list string
}.

Inductive Verdict : Type :=
| Match
| EngineMismatch (expected actual : string)
| SchemaMismatch (err : error)
| OrderByMismatch (err : error).

Definition compare (data : TableResourceModel) (actual : ActualTable)
  : Verdict :=
  if decide (at_engine actual <> types.ValueString (Engine data))
  then EngineMismatch (types.ValueString (Engine data)) (at_engine actual)
  else
    match validateColumns (Columns data) (at_columns actual) with
    | Some err => SchemaMismatch err
    | None =>
        if isMergeTreeFamily (at_engine actual)
        then match validateOrderBy (OrderBy data) (at_orderKey actual) with
             | Some err => OrderByMismatch err
             | None => Match
             end
        else Match
    end.

(** What [Read] does with the verdict. *)
Definition report (v : Verdict) (data : TableResourceModel) (resp : Response)
  : Response :=
  match v with
  | Match => State_Set resp data
  | EngineMismatch expected actual =>
      AddError resp "Table engine mismatch"
        ("Expected engine '" +:+ expected +:+ "', but table has engine '"
         +:+ actual +:+ "'")
  | SchemaMismatch err =>
      AddError resp "Table schema mismatch"
        ("Table schema does not match configuration: " +:+ Error err)
  | OrderByMismatch err =>
      AddError resp "Table ORDER BY mismatch"
        ("Table ORDER BY does not match configuration: " +:+ Error err)
  end.

(** The table a client without failures shows to the reader. *)
Definition observed (db : sql_DB) (database tableName : string)
  : option ActualTable :=
  match tableRows db database tableName with
  | [] => None
  | row :: _ =>
      Some {| at_engine := tr_engine row;
              at_columns := columnsOf (columnRows db database tableName);
              at_orderKey := parseSortingKey (tr_sorting_key row) |}
  end.

Definition noFailure (db : sql_DB) : Prop := forall c, failure db c = None.

(** The names of the declared columns, and the mirror of a declared table:
    the same engine, a column per declared column with its name, its type
    and its comment (the empty comment for an absent one), the same order
    key. *)
Definition columnName (col : ColumnModel) : string :=
  types.ValueString (cm_Name col).

Definition columnNames (data : TableResourceModel) : list string :=
  List.map columnName (Columns data).

Definition declaredComment (col : ColumnModel) : string :=
  match cm_Comment col with
  | types.StringValue comment => comment
  | _ => ""
  end.

Definition mirrorColumn (col : ColumnModel) : string * ColumnInfo :=
  (columnName col,
   {| ci_Name := columnName col;
      ci_Type := types.ValueString (cm_Type col);
      ci_Comment := declaredComment col |}).

(** A declared column is found in the actual columns with its type and its
    comment. *)
Definition columnMatches (actualCols : gmap string ColumnInfo)
    (col : ColumnModel) : Prop :=
  exists actual,
    actualCols !! columnName col = Some actual
    /\ ci_Type actual = types.ValueString (cm_Type col)
    /\ ci_Comment actual = declaredComment col.

Definition orderKeyOf (data : TableResourceModel) : list string :=
  List.map types.ValueString (OrderBy data).

Definition actualFrom (data : TableResourceModel) : ActualTable :=
  {| at_engine := types.ValueString (Engine data);
     at_columns := list_to_map (List.map mirrorColumn (Columns data));
     at_orderKey := orderKeyOf data |}.

Definition withOrderKey (actual : ActualTable) (orderKey : list string)
  : ActualTable :=
  {| at_engine := at_engine actual;
     at_columns := at_columns actual;
     at_orderKey := orderKey |}.

(** The set of declared column names. *)
Definition nameSet (expectedCols : list ColumnModel) : gset string :=
  list_to_set (List.map columnName expectedCols).

(** ** The order-key parse in the words of the specification

    Strip one enclosing pair of parentheses if there is one, split on
    commas, trim each element; nothing for an absent or empty key. *)

Fixpoint lastByte (s : string) : option ascii :=
  match s with
  | EmptyString => None
  | String c EmptyString => Some c
  | String _ rest => lastByte rest
  end.

Fixpoint dropLastByte (s : string) : string :=
  match s with
  | EmptyString => EmptyString
  | String _ EmptyString => EmptyString
  | String c rest => String c (dropLastByte rest)
  end.

(** Every closing parenthesis of [s] closes one opened before it in [s] or
    one of the [depth] opened before [s], and none of these stays open.
    Parentheses are counted byte by byte. *)
Fixpoint balancedFrom (depth : nat) (s : string) : bool :=
  match s with
  | EmptyString => bool_decide (depth = 0)
  | String c rest =>
      if decide (c = "("%char) then balancedFrom (S depth) rest
      else if decide (c = ")"%char)
           then match depth with
                | 0 => false
                | S depth' => balancedFrom depth' rest
                end
           else balancedFrom depth rest
  end.

(** [s] without its enclosing pair: the first byte is an opening
    parenthesis, the last byte is the closing parenthesis that closes it,
    which is the case exactly when what is between them is balanced.  The
    key "(id, ts)" has such a pair; "toDate(ts)" and "(a), (b)" have
    none. *)
Definition stripEnclosingPair (s : string) : string :=
  match s with
  | EmptyString => s
  | String c rest =>
      if decide (c = "("%char)
      then if decide (lastByte rest = Some ")"%char)
           then if balancedFrom 0 (dropLastByte rest)
                then dropLastByte rest
                else s
           else s
      else s
  end.

Definition parseSortingKey_spec (sortingKey : NullString) : list string :=
  match sortingKey with
  | None => []
  | Some key =>
      let body := stripEnclosingPair key in
      if decide (body = "") then []
      else List.map strings.TrimSpace (strings.Split body ",")
  end.

Definition isParen (c : ascii) : bool := strings.inCutset c "()".

(** No parenthesis at either end of [s]. *)
Definition bareEnds (s : string) : Prop :=
  match s with
  | EmptyString => True
  | String c rest =>
      isParen c = false /\
      match lastByte s with Some d => isParen d = false | None => True end
  end.

(** ** Import and the position order of the columns *)

Definition success (out : IO Response) : Prop :=
  diag.HasError (Diagnostics (fst out)) = false.

Definition importedColumnNames (out : IO Response) : list string :=
  match State (fst out) with
  | Some data => columnNames data
  | None => []
  end.

Definition positionOrderNames (db : sql_DB) (database tableName : string)
  : list string :=
  List.map cr_name (columnRows db database tableName).

(** A well-formed identity: two non-empty parts without a dot. *)
Definition noSep (sep : ascii) (s : string) : Prop :=
  ~ In sep (list_ascii_of_string s).

Definition noDot (s : string) : Prop := noSep "." s.

Definition identity (database tableName : string) : string :=
  database +:+ "." +:+ tableName.

Definition wellFormed (database tableName : string) : Prop :=
  database <> "" /\ tableName <> "" /\ noDot database /\ noDot tableName.

Definition decoded (resp : Response) (d : tfsdk_Data) : Prop :=
  diag.HasError (diag.Append (Diagnostics resp) (Get_diags d)) = false.

(** ** Sample tables *)

Definition events_db (first second : string) : sql_DB :=
  {| system_tables :=
       [mkTableRow "default" "events" "MergeTree" (Some "(id, ts)")];
     system_columns :=
       [ mkColumnRow "default" "events" first "UInt64" (Some "") 1;
         mkColumnRow "default" "events" second "UInt64" (Some "") 2 ];
     failure := fun _ => None |}.

Definition empty_db : sql_DB :=
  {| system_tables := []; system_columns := []; failure := fun _ => None |}.

Definition fresh : Response := {| Diagnostics := []; State := None |}.

Definition stateOf (data : TableResourceModel) : ReadRequest :=
  mkReadRequest (mkData data []).

Definition log_state : TableResourceModel :=
  {| ID := sv "default.audit";
     Name := sv "audit";
     Database := sv "default";
     Engine := sv "Log";
     Columns := [ mkColumnModel (sv "id") (sv "UInt64") types.StringNull;
                  mkColumnModel (sv "ts") (sv "UInt64") (sv "when") ];
     OrderBy := [sv "id"; sv "ts"] |}.

Definition events_state : TableResourceModel :=
  {| ID := sv "default.events";
     Name := sv "events";
     Database := sv "default";
     Engine := sv "MergeTree";
     Columns := [ mkColumnModel (sv "id") (sv "UInt64") types.StringNull;
                  mkColumnModel (sv "ts") (sv "UInt64") types.StringNull ];
     OrderBy := [sv "id"; sv "ts"] |}.

(** ** The layout of the statements *)

(** The elements after the first of a [strings.Join]: each with the
    separator before it. *)
Fixpoint joinTail (sep : string) (elems : list string) : string :=
  match elems with
  | [] => EmptyString
  | e :: rest => sep +:+ e +:+ joinTail sep rest
  end.

(** The line of a column in the CREATE TABLE statement. *)
Definition columnLine (col : ColumnModel) : string :=
  "    " +:+ types.ValueString (cm_Name col) +:+ " "
  +:+ types.ValueString (cm_Type col)
  +:+ match cm_Comment col with
      | types.StringValue comment => " COMMENT '" +:+ comment +:+ "'"
      | _ => ""
      end.

Definition orderByClause (keys : list string) : string :=
  match keys with
  | [] => ""
  | _ => "
ORDER BY (" +:+ strings.Join keys ", " +:+ ")"
  end.

Definition createTableLayout (data : TableResourceModel) : string :=
  "CREATE TABLE " +:+ types.ValueString (Database data) +:+ "."
  +:+ types.ValueString (Name data) +:+ " (
" +:+ strings.Join (List.map columnLine (Columns data)) ",
" +:+ "
) ENGINE = " +:+ types.ValueString (Engine data)
  +:+ orderByClause (orderKeyOf data).

(** A key that the ORDER BY clause and the parse of the sorting key leave
    as it is: not empty, without a comma, without white space or a
    parenthesis at either end. *)
Definition plainKey (key : string) : Prop :=
  key <> "" /\ noSep "," key /\ strings.TrimSpace key = key /\ bareEnds key.

(** ** The states the operations leave *)

(** The plan with the default database of [Create]. *)
Definition withDefaultDatabase (data : TableResourceModel)
  : TableResourceModel :=
  if types.IsNull (Database data) || types.IsUnknown (Database data)
  then withDatabase data (types.StringValue "default")
  else data.

(** A state whose ID is its database and its name with a dot between. *)
Definition identified (data : TableResourceModel) : Prop :=
  types.ValueString (ID data)
  = identity (types.ValueString (Database data))
      (types.ValueString (Name data)).

Definition known (v : types.String) : Prop :=
  types.IsNull v = false /\ types.IsUnknown v = false.

Definition hasDot (s : string) : Prop := In "."%char (list_ascii_of_string s).

(** ** The calls of Read *)

(** The calls [Read] makes on a table it finds, by the verdict of the
    comparison: the sorting key is queried only for an engine of the
    MergeTree family whose columns match. *)
Definition readCalls (database tableName : string) (v : Verdict)
    (family : bool) : list Call :=
  match v with
  | EngineMismatch _ _ => [SelectEngine database tableName]
  | SchemaMismatch _ =>
      [SelectEngine database tableName; SelectColumns database tableName]
  | OrderByMismatch _ =>
      [SelectEngine database tableName; SelectColumns database tableName;
       SelectSortingKey database tableName]
  | Match =>
      if family
      then [SelectEngine database tableName; SelectColumns database tableName;
            SelectSortingKey database tableName]
      else [SelectEngine database tableName; SelectColumns database tableName]
  end.

(** The traces of an operation that only reads one table: the engine
    query, then the columns query, then the sorting key query. *)
Definition readsOnly (database tableName : string) (t : list Call) : Prop :=
  t = []
  \/ t = [SelectEngine database tableName]
  \/ t = [SelectEngine database tableName; SelectColumns database tableName]
  \/ t = [SelectEngine database tableName; SelectColumns database tableName;
          SelectSortingKey database tableName].

(** A call of the trace was answered with a failure. *)
Definition someCallFailed (db : sql_DB) (t : list Call) : Prop :=
  exists c, In c t /\ failure db c <> None.

(** A client that shows the table [events] and fails on the columns
    query. *)
Definition columns_failing_db : sql_DB :=
  {| system_tables := system_tables (events_db "id" "ts");
     system_columns := system_columns (events_db "id" "ts");
     failure := fun c =>
       match c with
       | SelectColumns _ _ => Some "connection reset"
       | _ => None
       end |}.

(** The rows of a column name, in the order of the query. *)
Definition rowsNamed (name : string) (rows : list ColumnRow)
  : list ColumnRow :=
  List.filter (fun row => bool_decide (cr_name row = name)) rows.

(** The invariants of a state that [ImportState] sets. *)
Definition importedColumn (col : ColumnModel) : Prop :=
  known (cm_Name col) /\ known (cm_Type col)
  /\ cm_Comment col <> types.StringUnknown
  /\ cm_Comment col <> types.StringValue "".

Definition importedState (id : string) (data : TableResourceModel) : Prop :=
  ID data = types.StringValue id
  /\ identified data
  /\ known (Name data) /\ known (Database data) /\ known (Engine data)
  /\ types.ValueString (Database data) <> ""
  /\ types.ValueString (Name data) <> ""
  /\ Forall importedColumn (Columns data)
  /\ Forall known (OrderBy data)
  /\ (isMergeTreeFamily (types.ValueString (Engine data)) = false ->
      OrderBy data = []).

(** The column with its comment, absent or not, as a known value. *)
Definition withKnownComment (col : ColumnModel) : ColumnModel :=
  {| cm_Name := cm_Name col;
     cm_Type := cm_Type col;
     cm_Comment := types.StringValue (declaredComment col) |}.

(** The state [Create] sets for a plan. *)
Definition createdState (data : TableResourceModel) : TableResourceModel :=
  let data := withDefaultDatabase data in
  withID data
    (types.StringValue
       (types.ValueString (Database data) +:+ "."
        +:+ types.ValueString (Name data))).

(** ** The table after its creation

    What the live system is taken to show once the CREATE TABLE statement
    of a state has been executed: one row of [system.tables] with the
    engine of the state and, as sorting key, the keys joined by ", "; one
    row of [system.columns] per declared column, at the positions 1, 2,
    ... of the declaration, with the comment of the column (the empty
    comment for an absent one). *)
Fixpoint createdColumns (database tableName : string) (i : nat)
    (cols : list ColumnModel) : list ColumnRow :=
  match cols with
  | [] => []
  | col :: rest =>
      mkColumnRow database tableName (columnName col)
        (types.ValueString (cm_Type col)) (Some (declaredComment col)) (S i)
      :: createdColumns database tableName (S i) rest
  end.

Definition createdDB (data : TableResourceModel) : sql_DB :=
  {| system_tables :=
       [ mkTableRow (types.ValueString (Database data))
           (types.ValueString (Name data))
           (types.ValueString (Engine data))
           (Some (strings.Join (orderKeyOf data) ", ")) ];
     system_columns :=
       createdColumns (types.ValueString (Database data))
         (types.ValueString (Name data)) 0 (Columns data);
     failure := fun _ => None |}.

(** A table ordered by the day of its timestamp. *)
Definition daily_state : TableResourceModel :=
  {| ID := sv "default.daily";
     Name := sv "daily";
     Database := sv "default";
     Engine := sv "MergeTree";
     Columns := [ mkColumnModel (sv "ts") (sv "DateTime") types.StringNull ];
     OrderBy := [sv "toDate(ts)"] |}.

(** A table whose sorting key is the day of its timestamp. *)
Definition daily_db : sql_DB :=
  {| system_tables :=
       [mkTableRow "default" "daily" "MergeTree" (Some "toDate(ts)")];
     system_columns :=
       [mkColumnRow "default" "daily" "ts" "DateTime" (Some "") 1];
     failure := fun _ => None |}.

(** * Properties *)

Example Split_dot : strings.Split "default.events" "." = ["default"; "events"].
Proof. reflexivity. Qed.

Example Split_empty : strings.Split "" "." = [""].
Proof. reflexivity. Qed.

Example Split_lone_dot : strings.Split ".table" "." = [""; "table"].
Proof. reflexivity. Qed.

Example Trim_parens : strings.Trim "((a)b)" "()" = "a)b".
Proof. reflexivity. Qed.

Example TrimSpace_ascii : strings.TrimSpace "  id	 " = "id".
Proof. reflexivity. Qed.

Example TrimSpace_nbsp :
  strings.TrimSpace (strings.bytes [194; 160; 105; 100; 226; 128; 137; 32])
  = "id".
Proof. vm_compute. reflexivity. Qed.

(** ** DDL synthesis *)

(** C3 (as amended): for the table [events] of database [default] with
    engine MergeTree, the columns [id UInt64] with comment "pk" and
    [ts DateTime] with no comment (a null comment), ordered by [id],
    [generateCreateTableSQL] returns exactly the statement of the
    specification, with no COMMENT clause for [ts]. *)
Theorem generateCreateTableSQL_events :
  generateCreateTableSQL events_absent_comment = events_sql.
Proof. reflexivity. Qed.

(** C3 as stated fails: with the comment of [ts] present and empty, the
    statement has the clause [COMMENT ''] for [ts] and is not the expected
    one. *)
Lemma generateCreateTableSQL_events_empty_comment :
  generateCreateTableSQL events_empty_comment =
    "CREATE TABLE default.events (
    id UInt64 COMMENT 'pk',
    ts DateTime COMMENT ''
) ENGINE = MergeTree
ORDER BY (id)"
  /\ bool_decide (generateCreateTableSQL events_empty_comment = events_sql)
     = false.
Proof. split; reflexivity. Qed.

(** ** Diagnostics *)

Lemma HasError_app (ds1 ds2 : diag.Diagnostics) :
  diag.HasError (ds1 ++ ds2) = diag.HasError ds1 || diag.HasError ds2.
Proof. unfold diag.HasError. apply existsb_app. Qed.

Lemma HasError_AddError (resp : Response) (summary detail : string) :
  diag.HasError (Diagnostics (AddError resp summary detail)) = true.
Proof.
  unfold AddError, diag.AddError. simpl. rewrite HasError_app. simpl.
  apply orb_true_r.
Qed.

(** ** Update *)

(** C9: [Update] always ends with an error diagnostic, makes no call on
    the client (no statement is executed) and leaves the state of the
    response as it was; once the plan is decoded the error is
    "Update is not implemented". *)
Theorem Update_unsupported (r : TableResource) (req : UpdateRequest)
    (resp : Response) :
  snd (Update r req resp) = []
  /\ State (fst (Update r req resp)) = State resp
  /\ diag.HasError (Diagnostics (fst (Update r req resp))) = true
  /\ (decoded resp (update_Plan req) ->
      Diagnostics (fst (Update r req resp)) =
        Diagnostics resp ++ Get_diags (update_Plan req)
        ++ [diag.ErrorDiagnostic "Update is not implemented"
              "Update is not implemented"]).
Proof.
  unfold Update, decoded.
  destruct (diag.HasError (Diagnostics (AppendDiags resp _))) eqn:Herr.
  - repeat split; try done. simpl in *. unfold diag.Append in *. congruence.
  - repeat split; try done.
    + apply HasError_AddError.
    + intros _. simpl. unfold diag.AddError, diag.Append.
      by rewrite <- app_assoc.
Qed.

Lemma Update_unsupported_witness :
  Diagnostics (fst (Update (mkTableResource empty_db)
                      (mkUpdateRequest (mkData events_absent_comment []))
                      fresh)) =
    [diag.ErrorDiagnostic "Update is not implemented"
       "Update is not implemented"].
Proof.
  apply (proj2 (proj2 (proj2
           (Update_unsupported (mkTableResource empty_db)
              (mkUpdateRequest (mkData events_absent_comment [])) fresh)))).
  reflexivity.
Defined.

(** ** Splitting *)

Section Split.

Variable sep : ascii.

Lemma Split_not_nil (s : string) : strings.Split s sep <> [].
Proof.
  induction s as [|c rest IH]; simpl; [done|].
  case_decide; [done|]. by destruct (strings.Split rest sep).
Qed.

Lemma Split_noSep (s : string) : noSep sep s -> strings.Split s sep = [s].
Proof.
  unfold noSep. induction s as [|c rest IH]; simpl; intros Hs; [done|].
  case_decide; [tauto|].
  rewrite IH; [done|]. tauto.
Qed.

Lemma Split_app (s1 s2 : string) :
  noSep sep s1 ->
  strings.Split (s1 +:+ String sep s2) sep = s1 :: strings.Split s2 sep.
Proof.
  unfold noSep. induction s1 as [|c rest IH]; simpl; intros Hs.
  - by rewrite decide_True.
  - case_decide; [tauto|].
    rewrite IH; [done|]. tauto.
Qed.

(** The pieces hold no separator, and joined by it they give the string
    back. *)
Lemma Split_pieces (s : string) : Forall (noSep sep) (strings.Split s sep).
Proof.
  induction s as [|c rest IH]; simpl.
  - constructor; [|done]. unfold noSep. simpl. tauto.
  - case_decide.
    + constructor; [|done]. unfold noSep. simpl. tauto.
    + destruct (strings.Split rest sep) as [|piece pieces].
      * constructor; [|done]. unfold noSep. simpl. intuition.
      * inversion IH; subst. constructor; [|done].
        unfold noSep in *. simpl. intuition.
Qed.

Lemma Join_Split (s : string) :
  strings.Join (strings.Split s sep) (String sep EmptyString) = s.
Proof.
  induction s as [|c rest IH]; simpl; [done|].
  case_decide as Hc.
  - subst c. pose proof (Split_not_nil rest) as Hne.
    destruct (strings.Split rest sep) as [|piece pieces]; [done|].
    simpl in *. by rewrite IH.
  - pose proof (Split_not_nil rest) as Hne.
    destruct (strings.Split rest sep) as [|piece pieces]; [done|].
    destruct pieces; simpl in *; by rewrite <- IH.
Qed.

End Split.

Lemma Split_identity (database tableName : string) :
  noDot database -> noDot tableName ->
  strings.Split (identity database tableName) "." = [database; tableName].
Proof.
  intros Hd Ht. unfold identity.
  change ("." +:+ tableName) with (String "."%char tableName).
  rewrite (Split_app "."%char database tableName Hd).
  by rewrite (Split_noSep "."%char tableName Ht).
Qed.

(** ** The queries *)

Lemma queryEngine_absent (db : sql_DB) (database tableName : string) :
  failure db (SelectEngine database tableName) = None ->
  tableRows db database tableName = [] ->
  queryEngine db database tableName =
    (Err sql_ErrNoRows, [SelectEngine database tableName]).
Proof. intros Hf Hrows. unfold queryEngine, call. by rewrite Hf, Hrows. Qed.

(** ** Read and ImportState on an absent table *)

(** C8: for a well-formed identity whose table is not in [system.tables]
    (the engine query is answered, with no row), [Read] removes the
    resource from the state and adds no diagnostic, whereas [ImportState]
    adds the error "Table not found"; both make the engine query only. *)
Theorem absent_table_gone_or_not_found (range : MapRange) (r : TableResource)
    (data : TableResourceModel) (diags : diag.Diagnostics)
    (resp : Response) (database tableName : string) :
  wellFormed database tableName ->
  types.ValueString (ID data) = identity database tableName ->
  decoded resp (mkData data diags) ->
  failure (client r) (SelectEngine database tableName) = None ->
  tableRows (client r) database tableName = [] ->
  Read r (mkReadRequest (mkData data diags)) resp =
    ({| Diagnostics := Diagnostics resp ++ diags; State := None |},
     [SelectEngine database tableName])
  /\ diag.HasError (Diagnostics resp ++ diags) = false
  /\ ImportState range r
       (mkImportStateRequest (identity database tableName)) resp =
     (AddError resp "Table not found"
        ("Table " +:+ database +:+ "." +:+ tableName
         +:+ " does not exist in ClickHouse"),
      [SelectEngine database tableName]).
Proof.
  intros (Hd & Ht & Hnd & Hnt) Hid Hdec Hf Hrows.
  split; [|split; [exact Hdec|]].
  - unfold Read, AppendDiags, decoded in *.
    cbn [read_State Get_data Get_diags Diagnostics State] in *.
    rewrite Hdec, Hid, Split_identity by done.
    by rewrite queryEngine_absent.
  - unfold ImportState. cbn [import_ID].
    rewrite Split_identity by done.
    rewrite !bool_decide_eq_false_2 by done. cbn [orb].
    by rewrite queryEngine_absent.
Qed.

Lemma absent_table_gone_or_not_found_witness :
  Read (mkTableResource empty_db)
    (stateOf (withID events_absent_comment (sv "default.events"))) fresh =
    ({| Diagnostics := []; State := None |},
     [SelectEngine "default" "events"])
  /\ diag.HasError [] = false
  /\ ImportState map_to_list (mkTableResource empty_db)
       (mkImportStateRequest "default.events") fresh =
     (AddError fresh "Table not found"
        "Table default.events does not exist in ClickHouse",
      [SelectEngine "default" "events"]).
Proof.
  apply (absent_table_gone_or_not_found map_to_list
           (mkTableResource empty_db)
           (withID events_absent_comment (sv "default.events")) []
           fresh "default" "events").
  - unfold wellFormed, noDot, noSep. simpl. intuition congruence.
  - reflexivity.
  - reflexivity.
  - reflexivity.
  - reflexivity.
Defined.

(** ** The identity check *)

(** An identity that does not split into two parts is refused by [Read]
    before any call to the client. *)
Lemma Read_invalid_identity (r : TableResource) (data : TableResourceModel)
    (diags : diag.Diagnostics) (resp : Response) :
  decoded resp (mkData data diags) ->
  length (strings.Split (types.ValueString (ID data)) ".") <> 2 ->
  Read r (mkReadRequest (mkData data diags)) resp =
    (AddError (AppendDiags resp diags) "Invalid table ID"
       ("Expected format 'database.table', got: "
        +:+ types.ValueString (ID data)), []).
Proof.
  intros Hdec Hlen. unfold Read, decoded in *.
  cbn [read_State Get_data Get_diags] in *.
  unfold AppendDiags at 1. cbn [Diagnostics]. rewrite Hdec.
  destruct (strings.Split _ _) as [|database [|tableName [|? ?]]];
    simpl in Hlen; done.
Qed.

(** [ImportState] refuses it too, and also an identity with an empty
    part. *)
Lemma ImportState_invalid_identity (range : MapRange) (r : TableResource)
    (id : string) (resp : Response) :
  (forall database tableName,
      strings.Split id "." = [database; tableName] ->
      database = "" \/ tableName = "") ->
  snd (ImportState range r (mkImportStateRequest id) resp) = []
  /\ exists detail,
      fst (ImportState range r (mkImportStateRequest id) resp) =
        AddError resp "Invalid import identifier" detail.
Proof.
  intros Hparts. unfold ImportState. cbn [import_ID].
  destruct (strings.Split id ".") as [|database [|tableName [|? ?]]];
    try (split; [done|]; eauto).
  destruct (Hparts database tableName eq_refl) as [-> | ->].
  - split; [done|]. eauto.
  - destruct (bool_decide (database = "")); split; try done; eauto.
Qed.

(** C7 at the identities ".table" and "db.": [Read] finds two parts,
    does not refuse the identity and queries the client with an empty
    database or table name, where [ImportState] refuses the identity
    before any call. *)
Theorem Read_accepts_empty_part :
  Read (mkTableResource empty_db)
    (stateOf (withID events_absent_comment (sv ".table"))) fresh =
    ({| Diagnostics := []; State := None |}, [SelectEngine "" "table"])
  /\ Read (mkTableResource empty_db)
       (stateOf (withID events_absent_comment (sv "db."))) fresh =
     ({| Diagnostics := []; State := None |}, [SelectEngine "db" ""])
  /\ ImportState map_to_list (mkTableResource empty_db)
       (mkImportStateRequest ".table") fresh =
     (AddError fresh "Invalid import identifier"
        "Database and table names cannot be empty", [])
  /\ ImportState map_to_list (mkTableResource empty_db)
       (mkImportStateRequest "db.") fresh =
     (AddError fresh "Invalid import identifier"
        "Database and table names cannot be empty", []).
Proof. repeat split. Qed.

(** ** Read against the observed table *)

Lemma tableRows_observed (db : sql_DB) (database tableName : string)
    (actual : ActualTable) :
  observed db database tableName = Some actual ->
  exists row rows,
    tableRows db database tableName = row :: rows
    /\ at_engine actual = tr_engine row
    /\ at_columns actual = columnsOf (columnRows db database tableName)
    /\ at_orderKey actual = parseSortingKey (tr_sorting_key row).
Proof.
  unfold observed. destruct (tableRows db database tableName) as [|row rows];
    [done|].
  intros [= <-]. by exists row, rows.
Qed.

(** When no call fails and the table exists, the response of [Read] is the
    report of [compare] on the observed table. *)
Lemma Read_observed (r : TableResource) (data : TableResourceModel)
    (diags : diag.Diagnostics) (resp : Response)
    (database tableName : string) (actual : ActualTable) :
  decoded resp (mkData data diags) ->
  strings.Split (types.ValueString (ID data)) "." = [database; tableName] ->
  noFailure (client r) ->
  observed (client r) database tableName = Some actual ->
  fst (Read r (mkReadRequest (mkData data diags)) resp) =
    report (compare data actual) data (AppendDiags resp diags).
Proof.
  intros Hdec Hid Hnf Hobs.
  destruct (tableRows_observed _ _ _ _ Hobs)
    as (row & rows & Hrows & Heng & Hcols & Hkey).
  unfold Read, decoded in *. cbn [read_State Get_data Get_diags] in *.
  unfold AppendDiags at 1. cbn [Diagnostics]. rewrite Hdec, Hid.
  unfold queryEngine, getTableColumns, getTableOrderBy, queryColumns,
    querySortingKey, call, compare.
  rewrite !Hnf, Hrows, Heng, Hcols, Hkey. cbn [bind ret fst snd].
  case_decide; [done|].
  cbn [bind ret fst snd].
  destruct (validateColumns _ _); [done|].
  destruct (isMergeTreeFamily _); [|done].
  cbn [bind ret fst snd]. rewrite ?Hnf.
  by destruct (validateOrderBy _ _).
Qed.

(** ** The state after a successful Read *)

Lemma fst_bind {A B} (m : IO A) (k : A -> IO B) :
  fst (bind m k) = fst (k (fst m)).
Proof. destruct m as [a t]. simpl. by destruct (k a). Qed.

(** The four ways in which [Read] ends: the decoding failed; an error was
    added; the resource was removed; the decoded state was written back. *)
Lemma Read_outcome (r : TableResource) (req : ReadRequest) (resp : Response) :
  let resp1 := AppendDiags resp (Get_diags (read_State req)) in
  (diag.HasError (Diagnostics resp1) = true
   /\ fst (Read r req resp) = resp1)
  \/ (exists summary detail,
         fst (Read r req resp) = AddError resp1 summary detail)
  \/ fst (Read r req resp) = State_RemoveResource resp1
  \/ fst (Read r req resp) = State_Set resp1 (Get_data (read_State req)).
Proof.
  intros resp1. unfold Read. fold resp1.
  destruct (diag.HasError (Diagnostics resp1)) eqn:Hdec; [by left|].
  right.
  destruct (strings.Split _ _) as [|database [|tableName [|? ?]]];
    try (left; cbn [ret fst]; by eauto).
  rewrite fst_bind.
  destruct (fst (queryEngine _ _ _)) as [actualEngine|err].
  2: { destruct (is_ErrNoRows err); cbn [ret fst]; eauto. }
  case_decide; [left; cbn [ret fst]; by eauto|]. rewrite fst_bind.
  destruct (fst (getTableColumns _ _ _)) as [actualColumns|err];
    [|left; cbn [ret fst]; by eauto].
  destruct (validateColumns _ _); [left; cbn [ret fst]; by eauto|].
  destruct (isMergeTreeFamily _); [|by (do 2 right)].
  rewrite fst_bind.
  destruct (fst (getTableOrderBy _ _ _)) as [actualOrderBy|err];
    [|left; cbn [ret fst]; by eauto].
  destruct (validateOrderBy _ _); [left; cbn [ret fst]; by eauto|].
  by (do 2 right).
Qed.

(** C10: whenever [Read] ends without an error diagnostic and with the
    resource still in the state, the response holds the diagnostics of the
    decoding and, as its state, the prior state as it was decoded: no field
    is taken from what the client returned. *)
Theorem Read_success_keeps_state (r : TableResource) (req : ReadRequest)
    (resp : Response) :
  success (Read r req resp) ->
  State (fst (Read r req resp)) <> None ->
  fst (Read r req resp) =
    {| Diagnostics := Diagnostics resp ++ Get_diags (read_State req);
       State := Some (Get_data (read_State req)) |}.
Proof.
  unfold success.
  destruct (Read_outcome r req resp)
    as [[Herr ->] | [(summary & detail & ->) | [-> | ->]]].
  - congruence.
  - rewrite HasError_AddError. congruence.
  - simpl. congruence.
  - done.
Qed.

Lemma Read_success_keeps_state_witness :
  fst (Read (mkTableResource (events_db "ts" "id")) (stateOf events_state)
         fresh) =
    {| Diagnostics := []; State := Some events_state |}.
Proof.
  apply (Read_success_keeps_state (mkTableResource (events_db "ts" "id"))
           (stateOf events_state) fresh).
  - reflexivity.
  - vm_compute. discriminate.
Defined.

(** ** The parse of the sorting key *)

Lemma string_snoc (s : string) :
  s = "" \/ exists init c, s = init +:+ String c "" /\ lastByte s = Some c
                           /\ dropLastByte s = init.
Proof.
  induction s as [|a rest IH]; [by left|]. right.
  destruct IH as [-> | (init & c & -> & Hlast & Hdrop)].
  - by exists "", a.
  - exists (String a init), c. simpl. rewrite Hlast, Hdrop.
    destruct (init +:+ String c "") eqn:Heq.
    + destruct init; discriminate.
    + by rewrite <- Heq.
Qed.

Lemma TrimRight_keep (s : string) (c : ascii) (cutset : string) :
  strings.inCutset c cutset = false ->
  strings.TrimRight (s +:+ String c "") cutset = s +:+ String c "".
Proof.
  intros Hc. induction s as [|a rest IH]; simpl.
  - by rewrite Hc.
  - rewrite IH. by destruct rest.
Qed.

Lemma TrimRight_drop (s : string) (c : ascii) (cutset : string) :
  strings.inCutset c cutset = true ->
  strings.TrimRight (s +:+ String c "") cutset = strings.TrimRight s cutset.
Proof.
  intros Hc. induction s as [|a rest IH]; simpl.
  - by rewrite Hc.
  - by rewrite IH.
Qed.

(** A string with no parenthesis at either end is left as it is. *)
Lemma Trim_bareEnds (s : string) : bareEnds s -> strings.Trim s "()" = s.
Proof.
  destruct s as [|c rest]; [done|]. intros [Hc Hlast].
  unfold strings.Trim.
  destruct (string_snoc (String c rest)) as [|(init & d & Heq & Hd & _)];
    [done|].
  rewrite Hd in Hlast. rewrite Heq, TrimRight_keep by done.
  rewrite <- Heq. cbn [strings.TrimLeft]. unfold isParen in Hc.
  by rewrite Hc.
Qed.

(** Around a string with no parenthesis at either end, [strings.Trim]
    removes one pair of parentheses and nothing else. *)
Lemma Trim_enclosed (body : string) :
  bareEnds body ->
  strings.Trim (String "(" (body +:+ ")")) "()" = body.
Proof.
  intros Hbare. unfold strings.Trim.
  change (String "(" (body +:+ ")")) with (String "(" body +:+ ")").
  rewrite TrimRight_drop by done.
  destruct (string_snoc body) as [->|(init & d & Heq & Hd & _)]; [done|].
  assert (isParen d = false) as Hparen.
  { destruct body as [|a body0]; [by destruct init|].
    destruct Hbare as [_ Hb]. by rewrite Hd in Hb. }
  rewrite Heq.
  change (String "(" (init +:+ String d "")) with
    (String "(" init +:+ String d "").
  rewrite TrimRight_keep by done.
  change (String "(" init +:+ String d "") with
    (String "(" (init +:+ String d "")).
  rewrite <- Heq.
  change (strings.TrimLeft (String "(" body) "()") with
    (strings.TrimLeft body "()").
  destruct body as [|a body0]; [done|]. cbn [strings.TrimLeft].
  destruct Hbare as [Ha _]. unfold isParen in Ha. by rewrite Ha.
Qed.

(** Where the key without its enclosing pair has no parenthesis at either
    end, [strings.Trim] does what the removal of the enclosing pair does. *)
Lemma Trim_stripEnclosingPair (key : string) :
  bareEnds (stripEnclosingPair key) ->
  strings.Trim key "()" = stripEnclosingPair key.
Proof.
  destruct key as [|c rest]; [done|]. unfold stripEnclosingPair.
  destruct (decide (c = "("%char)) as [->|Hc];
    [|by apply Trim_bareEnds].
  destruct (decide (lastByte rest = Some ")"%char)) as [Hl|Hl];
    [|by apply Trim_bareEnds].
  destruct (balancedFrom 0 (dropLastByte rest));
    [|by apply Trim_bareEnds].
  intros Hbare.
  destruct (string_snoc rest) as [->|(init & d & Heq & Hd & Hdrop)]; [done|].
  rewrite Hdrop in *. rewrite Hd in Hl. injection Hl as ->. subst rest.
  by apply Trim_enclosed.
Qed.

(** When the query is answered, [getTableOrderBy] returns the parse of the
    sorting key of the table, and no error. *)
Lemma getTableOrderBy_ok (r : TableResource) (database tableName : string)
    (row : TableRow) (rows : list TableRow) :
  failure (client r) (SelectSortingKey database tableName) = None ->
  tableRows (client r) database tableName = row :: rows ->
  getTableOrderBy r database tableName =
    (Ok (parseSortingKey (tr_sorting_key row)),
     [SelectSortingKey database tableName]).
Proof.
  intros Hf Hrows. unfold getTableOrderBy, querySortingKey, call.
  by rewrite Hf, Hrows.
Qed.

Example stripEnclosingPair_pairs :
  stripEnclosingPair "(id, ts)" = "id, ts"
  /\ stripEnclosingPair "((id))" = "(id)"
  /\ stripEnclosingPair "()" = ""
  /\ stripEnclosingPair "toDate(ts)" = "toDate(ts)"
  /\ stripEnclosingPair "(a), (b)" = "(a), (b)"
  /\ stripEnclosingPair "(a(b)" = "(a(b)"
  /\ stripEnclosingPair "(a)b)" = "(a)b)".
Proof. repeat split. Qed.

(** Where the key without its enclosing pair has no parenthesis at either
    end, the parse is the one of the specification: that pair removed, the
    rest split on commas, each element trimmed. *)
Lemma parseSortingKey_bare_ends (key : string) :
  bareEnds (stripEnclosingPair key) ->
  parseSortingKey (Some key) = parseSortingKey_spec (Some key).
Proof.
  intros Hbare.
  unfold parseSortingKey, parseSortingKey_spec, NullString_Valid,
    NullString_String.
  change (default "" (Some key)) with key.
  rewrite (bool_decide_eq_true_2 (is_Some (Some key))) by eauto.
  cbn [negb orb].
  rewrite (Trim_stripEnclosingPair key Hbare).
  case_bool_decide as Hkey; [by subst key|done].
Qed.

(** C5 fails on the code: the parse removes every parenthesis at either end
    of the sorting key, where the specification removes one enclosing pair.
    The key toDate(ts) has no enclosing pair and loses its closing
    parenthesis: alone, as [getTableOrderBy] returns it for a table with
    this sorting key, as the last key of a list, and as the last key of a
    list within an enclosing pair.  Of the key ((id)) both pairs are
    removed.  An absent or empty key, the key () and the key (id, ts) are
    parsed as the specification says. *)
Theorem parseSortingKey_loses_closing_parenthesis :
  parseSortingKey (Some "toDate(ts)") = ["toDate(ts"]
  /\ parseSortingKey_spec (Some "toDate(ts)") = ["toDate(ts)"]
  /\ getTableOrderBy (mkTableResource daily_db) "default" "daily"
     = (Ok ["toDate(ts"], [SelectSortingKey "default" "daily"])
  /\ parseSortingKey (Some "id, toDate(ts)") = ["id"; "toDate(ts"]
  /\ parseSortingKey_spec (Some "id, toDate(ts)") = ["id"; "toDate(ts)"]
  /\ parseSortingKey (Some "(id, toDate(ts))") = ["id"; "toDate(ts"]
  /\ parseSortingKey_spec (Some "(id, toDate(ts))") = ["id"; "toDate(ts)"]
  /\ parseSortingKey (Some "((id))") = ["id"]
  /\ parseSortingKey_spec (Some "((id))") = ["(id)"]
  /\ parseSortingKey None = parseSortingKey_spec None
  /\ parseSortingKey (Some "") = parseSortingKey_spec (Some "")
  /\ parseSortingKey (Some "()") = parseSortingKey_spec (Some "()")
  /\ parseSortingKey (Some "(id, ts)") = parseSortingKey_spec (Some "(id, ts)").
Proof. repeat split. Qed.

(** ** The comparison of the columns *)

Lemma expectedComment_declared (col : ColumnModel) :
  (if negb (types.IsNull (cm_Comment col))
      && negb (types.IsUnknown (cm_Comment col))
   then types.ValueString (cm_Comment col)
   else "") = declaredComment col.
Proof. unfold declaredComment. by destruct (cm_Comment col). Qed.

Lemma validateEachColumn_None (expectedCols : list ColumnModel)
    (actualCols : gmap string ColumnInfo) :
  validateEachColumn expectedCols actualCols = None
  <-> Forall (columnMatches actualCols) expectedCols.
Proof.
  induction expectedCols as [|col rest IH]; simpl; [by split|].
  rewrite expectedComment_declared, Forall_cons. unfold columnMatches at 1.
  fold (columnName col).
  destruct (actualCols !! columnName col) as [actual|].
  - repeat case_decide.
    + split; [done|]. intros [(? & [= <-] & ? & ?) _]. done.
    + split; [done|]. intros [(? & [= <-] & ? & ?) _]. done.
    + rewrite IH. split; [|tauto]. intros Hrest. split; [|done].
      exists actual. split; [done|]. split; tauto || done.
  - split; [done|]. by intros [(? & ? & _) _].
Qed.

Lemma validateColumns_None (expectedCols : list ColumnModel)
    (actualCols : gmap string ColumnInfo) :
  validateColumns expectedCols actualCols = None
  <-> length expectedCols = size actualCols
      /\ Forall (columnMatches actualCols) expectedCols.
Proof.
  unfold validateColumns. case_decide as Hlen.
  - split; [done|]. intros [? _]. done.
  - rewrite validateEachColumn_None. tauto.
Qed.

(** The declared names are names of actual columns when the columns
    match. *)
Lemma columnMatches_nameSet (expectedCols : list ColumnModel)
    (actualCols : gmap string ColumnInfo) :
  Forall (columnMatches actualCols) expectedCols ->
  nameSet expectedCols ⊆ dom actualCols.
Proof.
  intros Hall name. unfold nameSet.
  rewrite elem_of_list_to_set, list_elem_of_In, in_map_iff.
  intros (col & <- & Hin). rewrite Forall_forall in Hall.
  apply list_elem_of_In, Hall in Hin. destruct Hin as (actual & Hlook & _).
  by apply elem_of_dom_2 in Hlook.
Qed.

(** With distinct declared names, matching columns are the same set of
    names. *)
Lemma validateColumns_same_names (expectedCols : list ColumnModel)
    (actualCols : gmap string ColumnInfo) :
  NoDup (List.map columnName expectedCols) ->
  validateColumns expectedCols actualCols = None ->
  nameSet expectedCols = dom actualCols.
Proof.
  intros Hnodup [Hlen Hall]%validateColumns_None.
  apply set_subseteq_size_eq; [by apply columnMatches_nameSet|].
  unfold nameSet. rewrite size_list_to_set by done.
  rewrite size_dom, length_map. lia.
Qed.

(** C4: with distinct declared column names (the data model's invariant),
    when the set of declared names is a strict subset or a strict superset
    of the set of actual names, [validateColumns] returns an error; and
    whenever it returns none, the actual columns are as many as the declared
    ones. *)
Theorem validateColumns_strict_name_sets (expectedCols : list ColumnModel)
    (actualCols : gmap string ColumnInfo) :
  NoDup (List.map columnName expectedCols) ->
  nameSet expectedCols ⊂ dom actualCols
  \/ dom actualCols ⊂ nameSet expectedCols ->
  is_Some (validateColumns expectedCols actualCols)
  /\ forall actualCols' : gmap string ColumnInfo,
       validateColumns expectedCols actualCols' = None ->
       size actualCols' = length expectedCols.
Proof.
  intros Hnodup Hstrict. split.
  - destruct (validateColumns expectedCols actualCols) as [err|] eqn:Hv;
      [by eauto|].
    apply validateColumns_same_names in Hv; [|done].
    rewrite Hv in Hstrict. destruct Hstrict as [[_ []]|[_ []]]; done.
  - by intros actualCols' [-> _]%validateColumns_None.
Qed.

Lemma validateColumns_strict_name_sets_witness :
  is_Some (validateColumns
             [mkColumnModel (sv "id") (sv "UInt64") types.StringNull]
             (at_columns (actualFrom events_state)))
  /\ forall actualCols' : gmap string ColumnInfo,
       validateColumns
         [mkColumnModel (sv "id") (sv "UInt64") types.StringNull]
         actualCols' = None ->
       size actualCols' = 1.
Proof.
  apply (validateColumns_strict_name_sets
           [mkColumnModel (sv "id") (sv "UInt64") types.StringNull]
           (at_columns (actualFrom events_state))).
  - apply (bool_decide_unpack _). vm_compute. exact I.
  - left. apply (bool_decide_unpack _). vm_compute. exact I.
Defined.

(** Without distinct names the count alone does not tell the sets apart:
    a column declared twice matches a table with a second column. *)
Example validateColumns_repeated_name :
  validateColumns
    [ mkColumnModel (sv "id") (sv "UInt64") types.StringNull;
      mkColumnModel (sv "id") (sv "UInt64") types.StringNull ]
    (at_columns (actualFrom events_state)) = None.
Proof. vm_compute. reflexivity. Qed.

(** ** The mirror of a declared table *)

Lemma mirror_keys (cols : list ColumnModel) :
  (List.map mirrorColumn cols).*1 = List.map columnName cols.
Proof. induction cols as [|col rest IH]; [done|]. cbn. f_equal. exact IH. Qed.

Lemma validateColumns_mirror (cols : list ColumnModel) :
  NoDup (List.map columnName cols) ->
  validateColumns cols (list_to_map (List.map mirrorColumn cols)) = None.
Proof.
  intros Hnodup. apply validateColumns_None. split.
  - rewrite map_size_list_to_map, length_map; [done|].
    by rewrite mirror_keys.
  - apply Forall_forall. intros col Hin.
    exists (snd (mirrorColumn col)). split; [|done].
    apply elem_of_list_to_map_1; [by rewrite mirror_keys|].
    apply list_elem_of_In, in_map_iff. exists col. split; [done|].
    by apply list_elem_of_In.
Qed.

(** The positional loop of [validateOrderBy] ends without an error exactly
    on equal lists. *)
Lemma validateEachOrderBy_None (expectedStrs before actual : list string) :
  validateEachOrderBy (length before) expectedStrs (before ++ actual) = None
  -> length expectedStrs = length actual
  -> expectedStrs = actual.
Proof.
  revert before actual.
  induction expectedStrs as [|e rest IH]; intros before actual Hv Hlen.
  - by destruct actual.
  - destruct actual as [|a actual]; [done|]. simpl in Hv.
    rewrite lookup_app_r, Nat.sub_diag in Hv by done. simpl in Hv.
    case_decide as He; [done|]. subst a. f_equal.
    apply (IH (before ++ [e])); [|by simplify_eq/=].
    by rewrite length_app, Nat.add_1_r, <- app_assoc.
Qed.

Lemma validateEachOrderBy_refl (keys before : list string) :
  validateEachOrderBy (length before) keys (before ++ keys) = None.
Proof.
  revert before. induction keys as [|e rest IH]; intros before; [done|].
  simpl. rewrite lookup_app_r, Nat.sub_diag by done. simpl.
  rewrite decide_False by (intros Hne; by apply Hne).
  specialize (IH (before ++ [e])).
  by rewrite length_app, Nat.add_1_r, <- app_assoc in IH.
Qed.

Lemma validateOrderBy_refl (expected : list types.String) :
  validateOrderBy expected (List.map types.ValueString expected) = None.
Proof.
  unfold validateOrderBy. rewrite decide_False by (intros Hne; by apply Hne).
  apply (validateEachOrderBy_refl _ []).
Qed.

Lemma validateOrderBy_None (expected : list types.String)
    (actual : list string) :
  validateOrderBy expected actual = None ->
  List.map types.ValueString expected = actual.
Proof.
  unfold validateOrderBy. case_decide as Hlen; [done|].
  intros Hv. by apply (validateEachOrderBy_None _ [] actual Hv).
Qed.

Lemma compare_actualFrom (d : TableResourceModel) :
  NoDup (columnNames d) -> compare d (actualFrom d) = Match.
Proof.
  intros Hnodup. unfold compare, actualFrom, orderKeyOf.
  cbn [at_engine at_columns at_orderKey].
  rewrite decide_False by (intros Hne; by apply Hne).
  rewrite (validateColumns_mirror (Columns d) Hnodup).
  rewrite (validateOrderBy_refl (OrderBy d)).
  by destruct (isMergeTreeFamily _).
Qed.

(** When the client shows the mirror of the state, [Read] writes the state
    back and adds no diagnostic. *)
Corollary Read_mirror (r : TableResource) (data : TableResourceModel)
    (diags : diag.Diagnostics) (resp : Response)
    (database tableName : string) :
  NoDup (columnNames data) ->
  decoded resp (mkData data diags) ->
  strings.Split (types.ValueString (ID data)) "." = [database; tableName] ->
  noFailure (client r) ->
  observed (client r) database tableName = Some (actualFrom data) ->
  fst (Read r (mkReadRequest (mkData data diags)) resp) =
    State_Set (AppendDiags resp diags) data.
Proof.
  intros Hnodup Hdec Hid Hnf Hobs.
  rewrite (Read_observed r data diags resp database tableName
             (actualFrom data)) by done.
  by rewrite (compare_actualFrom data Hnodup).
Qed.

(** C1: for a declared table with distinct column names, the comparison
    with its mirror (the same engine, the same columns with an empty comment
    for an absent one, the same order key) finds no mismatch: the engines
    are equal, [validateColumns] and [validateOrderBy] return no error, and
    [compare] is [Match]. *)
Theorem compare_mirror (d : TableResourceModel) :
  NoDup (columnNames d) ->
  at_engine (actualFrom d) = types.ValueString (Engine d)
  /\ validateColumns (Columns d) (at_columns (actualFrom d)) = None
  /\ validateOrderBy (OrderBy d) (at_orderKey (actualFrom d)) = None
  /\ compare d (actualFrom d) = Match.
Proof.
  intros Hnodup. split; [done|]. split; [|split].
  - exact (validateColumns_mirror (Columns d) Hnodup).
  - exact (validateOrderBy_refl (OrderBy d)).
  - exact (compare_actualFrom d Hnodup).
Qed.

Lemma compare_mirror_witness :
  at_engine (actualFrom events_state) = "MergeTree"
  /\ validateColumns (Columns events_state)
       (at_columns (actualFrom events_state)) = None
  /\ validateOrderBy (OrderBy events_state)
       (at_orderKey (actualFrom events_state)) = None
  /\ compare events_state (actualFrom events_state) = Match.
Proof.
  apply (compare_mirror events_state).
  apply (bool_decide_unpack _). vm_compute. exact I.
Defined.

(** On lists of one length that differ, the loop reports the first index
    at which they differ. *)
Lemma validateEachOrderBy_Some (expectedStrs before actual : list string)
    (err : error) :
  validateEachOrderBy (length before) expectedStrs (before ++ actual)
  = Some err ->
  length expectedStrs = length actual ->
  exists i e a,
    expectedStrs !! i = Some e /\ actual !! i = Some a /\ e <> a
    /\ take i expectedStrs = take i actual
    /\ err = orderByColumnError (length before + i) e a.
Proof.
  revert before actual.
  induction expectedStrs as [|e rest IH]; intros before actual Hv Hlen;
    [done|].
  destruct actual as [|a actual]; [done|]. simpl in Hv.
  rewrite lookup_app_r, Nat.sub_diag in Hv by done. simpl in Hv.
  case_decide as He.
  - injection Hv as <-. exists 0, e, a. rewrite Nat.add_0_r. by repeat split.
  - subst a.
    destruct (IH (before ++ [e]) actual) as (i & e' & a & ? & ? & ? & Ht & ->).
    + by rewrite length_app, Nat.add_1_r, <- app_assoc.
    + by simplify_eq/=.
    + exists (S i), e', a. repeat split; try done.
      * simpl. by rewrite Ht.
      * rewrite length_app. cbn [length]. f_equal. lia.
Qed.

(** C6: for a declared table with distinct column names and an actual
    order key that is a permutation of the declared one and differs from
    it, the comparison with the mirror carrying that order key is, when the
    engine is of the MergeTree family, an ORDER BY mismatch that reports the
    first position at which the keys differ, and is a match when the engine
    is not of the family. *)
Theorem compare_permuted_order_key (d : TableResourceModel)
    (orderKey : list string) :
  NoDup (columnNames d) ->
  orderKey ≡ₚ orderKeyOf d ->
  orderKey <> orderKeyOf d ->
  if isMergeTreeFamily (types.ValueString (Engine d))
  then exists i e a,
      orderKeyOf d !! i = Some e /\ orderKey !! i = Some a /\ e <> a
      /\ validateOrderBy (OrderBy d) orderKey
         = Some (orderByColumnError i e a)
      /\ compare d (withOrderKey (actualFrom d) orderKey)
         = OrderByMismatch (orderByColumnError i e a)
  else compare d (withOrderKey (actualFrom d) orderKey) = Match.
Proof.
  intros Hnodup Hperm Hne.
  pose proof (validateColumns_mirror (Columns d) Hnodup) as Hcols.
  unfold compare, withOrderKey, actualFrom.
  cbn [at_engine at_columns at_orderKey].
  rewrite decide_False by (intros Hn; by apply Hn). rewrite Hcols.
  destruct (isMergeTreeFamily _); [|done].
  destruct (validateOrderBy (OrderBy d) orderKey) as [err|] eqn:Hv.
  - unfold validateOrderBy in Hv. fold (orderKeyOf d) in Hv.
    case_decide as Hlen; [by apply Permutation_length in Hperm|].
    destruct (validateEachOrderBy_Some _ [] orderKey err Hv Hlen)
      as (i & e & a & ? & ? & ? & _ & ->).
    by exists i, e, a.
  - apply validateOrderBy_None in Hv. by destruct Hne.
Qed.

Lemma compare_permuted_order_key_witness :
  (exists i e a,
      orderKeyOf events_state !! i = Some e
      /\ ["ts"; "id"] !! i = Some a /\ e <> a
      /\ validateOrderBy (OrderBy events_state) ["ts"; "id"]
         = Some (orderByColumnError i e a)
      /\ compare events_state
           (withOrderKey (actualFrom events_state) ["ts"; "id"])
         = OrderByMismatch (orderByColumnError i e a))
  /\ compare log_state (withOrderKey (actualFrom log_state) ["ts"; "id"])
     = Match.
Proof.
  split.
  - apply (compare_permuted_order_key events_state ["ts"; "id"]).
    + apply (bool_decide_unpack _). vm_compute. exact I.
    + apply (bool_decide_unpack _). vm_compute. exact I.
    + apply (bool_decide_unpack _). vm_compute. exact I.
  - apply (compare_permuted_order_key log_state ["ts"; "id"]).
    + apply (bool_decide_unpack _). vm_compute. exact I.
    + apply (bool_decide_unpack _). vm_compute. exact I.
    + apply (bool_decide_unpack _). vm_compute. exact I.
Defined.

(** ** Import *)

(** The state [ImportState] sets when the table exists and no call
    fails. *)
Lemma ImportState_observed (range : MapRange) (r : TableResource)
    (id : string) (resp : Response) (database tableName : string)
    (actual : ActualTable) :
  strings.Split id "." = [database; tableName] ->
  database <> "" -> tableName <> "" ->
  noFailure (client r) ->
  observed (client r) database tableName = Some actual ->
  fst (ImportState range r (mkImportStateRequest id) resp) =
    State_Set resp
      {| ID := types.StringValue id;
         Name := types.StringValue tableName;
         Database := types.StringValue database;
         Engine := types.StringValue (at_engine actual);
         Columns :=
           List.map (fun kv => columnModelOf (snd kv))
             (range (at_columns actual));
         OrderBy :=
           if isMergeTreeFamily (at_engine actual)
           then List.map types.StringValue (at_orderKey actual)
           else [] |}.
Proof.
  intros Hid Hd Ht Hnf Hobs.
  destruct (tableRows_observed _ _ _ _ Hobs)
    as (row & rows & Hrows & Heng & Hcols & Hkey).
  unfold ImportState. cbn [import_ID]. rewrite Hid.
  rewrite !bool_decide_eq_false_2 by done. cbn [orb].
  unfold queryEngine, getTableColumns, getTableOrderBy, queryColumns,
    querySortingKey, call.
  rewrite !Hnf, Hrows, Heng, Hcols, Hkey. cbn [bind ret fst snd].
  by destruct (isMergeTreeFamily _).
Qed.

Lemma columnName_columnModelOf (col : ColumnInfo) :
  columnName (columnModelOf col) = ci_Name col.
Proof. reflexivity. Qed.

(** The names of the imported columns are the names of the values of the
    columns map in the order of the range over it. *)
Lemma ImportState_column_names (range : MapRange) (r : TableResource)
    (id : string) (resp : Response) (database tableName : string)
    (actual : ActualTable) :
  strings.Split id "." = [database; tableName] ->
  database <> "" -> tableName <> "" ->
  noFailure (client r) ->
  observed (client r) database tableName = Some actual ->
  importedColumnNames (ImportState range r (mkImportStateRequest id) resp) =
    List.map (fun kv => ci_Name (snd kv)) (range (at_columns actual)).
Proof.
  intros Hid Hd Ht Hnf Hobs. unfold importedColumnNames.
  rewrite (ImportState_observed range r id resp database tableName actual)
    by done.
  cbn [State State_Set]. unfold columnNames. cbn [Columns].
  rewrite List.map_map. apply List.map_ext. intros kv.
  apply columnName_columnModelOf.
Qed.

(** Two tables with the same columns at exchanged positions have the same
    columns map. *)
Lemma events_db_same_columns :
  observed (events_db "ts" "id") "default" "events"
  = observed (events_db "id" "ts") "default" "events".
Proof. vm_compute. reflexivity. Qed.

(** C2 fails on the code: whatever the order in which the run ranges over
    the columns map, there is a table of two columns whose import succeeds
    and returns the columns in an order that is not the order of their
    positions; the columns map does not keep the order of the rows. *)
Theorem ImportState_position_order_lost (range : MapRange) :
  exists first second : string,
    let db := events_db first second in
    let out :=
      ImportState range (mkTableResource db)
        (mkImportStateRequest "default.events") fresh in
    positionOrderNames db "default" "events" = [first; second]
    /\ success out
    /\ exists names,
        importedColumnNames out = names /\ names <> [first; second].
Proof.
  assert (forall first second actual,
             observed (events_db first second) "default" "events"
             = Some actual ->
             importedColumnNames
               (ImportState range (mkTableResource (events_db first second))
                  (mkImportStateRequest "default.events") fresh)
             = List.map (fun kv => ci_Name (snd kv))
                 (range (at_columns actual))
             /\ success
                  (ImportState range
                     (mkTableResource (events_db first second))
                     (mkImportStateRequest "default.events") fresh))
    as Himport.
  { intros first second actual Hobs. split.
    - by apply (ImportState_column_names range _ _ _ "default" "events").
    - unfold success.
      by rewrite (ImportState_observed range _ _ _ "default" "events" actual). }
  destruct (observed (events_db "id" "ts") "default" "events")
    as [actual|] eqn:Hobs; [|by vm_compute in Hobs].
  pose proof Hobs as Hobs'. rewrite <- events_db_same_columns in Hobs'.
  destruct (Himport "id" "ts" actual Hobs) as [Hnames Hok].
  destruct (Himport "ts" "id" actual Hobs') as [Hnames' Hok'].
  destruct (decide (List.map (fun kv => ci_Name (snd kv))
                      (range (at_columns actual)) = ["id"; "ts"]))
    as [Heq|Hne].
  - exists "ts", "id". cbv zeta. split; [by vm_compute|]. split; [done|].
    eexists. split; [exact Hnames'|]. by rewrite Heq.
  - exists "id", "ts". cbv zeta. split; [by vm_compute|]. split; [done|].
    eexists. split; [exact Hnames|]. done.
Qed.

(** With distinct column names the columns map holds the rows, a row per
    name. *)
Lemma columns_fold (rows : list ColumnRow) (m : gmap string ColumnInfo) :
  NoDup (List.map cr_name rows) ->
  foldl (fun (columns : gmap string ColumnInfo) row =>
           <[cr_name row := columnInfoOf row]> columns) m rows
  = list_to_map (List.map (fun row => (cr_name row, columnInfoOf row)) rows)
    ∪ m.
Proof.
  revert m. induction rows as [|row rest IH]; intros m Hnodup.
  - simpl. by rewrite (left_id_L ∅ (∪)).
  - change (List.map cr_name (row :: rest))
      with (cr_name row :: List.map cr_name rest) in Hnodup.
    apply NoDup_cons in Hnodup as [Hnotin Hnodup].
    cbn [foldl]. rewrite IH by done.
    change (List.map (fun row => (cr_name row, columnInfoOf row))
              (row :: rest))
      with ((cr_name row, columnInfoOf row)
            :: List.map (fun row => (cr_name row, columnInfoOf row)) rest).
    rewrite list_to_map_cons, <- insert_union_l. symmetry.
    apply insert_union_r, not_elem_of_list_to_map_1.
    by rewrite <- list_fmap_compose.
Qed.

Lemma columnsOf_list_to_map (rows : list ColumnRow) :
  NoDup (List.map cr_name rows) ->
  columnsOf rows
  = list_to_map (List.map (fun row => (cr_name row, columnInfoOf row)) rows).
Proof.
  intros Hnodup. unfold columnsOf. rewrite columns_fold by done.
  by rewrite (right_id_L ∅ (∪)).
Qed.

(** What does hold of the imported columns: when the rows of the table
    have distinct names, an admissible range gives the names of the rows,
    each once, in some order. *)
Lemma ImportState_columns_permutation (range : MapRange) (r : TableResource)
    (id : string) (resp : Response) (database tableName : string)
    (actual : ActualTable) :
  admissible range ->
  strings.Split id "." = [database; tableName] ->
  database <> "" -> tableName <> "" ->
  noFailure (client r) ->
  observed (client r) database tableName = Some actual ->
  NoDup (positionOrderNames (client r) database tableName) ->
  importedColumnNames (ImportState range r (mkImportStateRequest id) resp)
  ≡ₚ positionOrderNames (client r) database tableName.
Proof.
  intros Hadm Hid Hd Ht Hnf Hobs Hnodup.
  rewrite (ImportState_column_names range r id resp database tableName actual)
    by done.
  destruct (tableRows_observed _ _ _ _ Hobs)
    as (row & rows & _ & _ & Hcols & _).
  unfold positionOrderNames in *.
  rewrite Hcols, columnsOf_list_to_map by done.
  rewrite (Hadm _), map_to_list_to_map.
  - rewrite List.map_map. simpl. done.
  - by rewrite <- list_fmap_compose.
Qed.

Lemma admissible_map_to_list : admissible map_to_list.
Proof. by intros m. Qed.

(** At the table with the column [ts] at position 1 and the column [id]
    at position 2, with the range in the order of [map_to_list]: the
    import has [id] before [ts]. *)
Example ImportState_events_ts_id :
  importedColumnNames
    (ImportState map_to_list (mkTableResource (events_db "ts" "id"))
       (mkImportStateRequest "default.events") fresh) = ["id"; "ts"]
  /\ positionOrderNames (events_db "ts" "id") "default" "events"
     = ["ts"; "id"].
Proof. split; vm_compute; reflexivity. Qed.

(** * Further properties of the operations *)

(** ** Strings *)

Lemma append_assoc (a b c : string) : (a +:+ b) +:+ c = a +:+ (b +:+ c).
Proof.
  induction a as [|x a IH]; [done|].
  change (String x ((a +:+ b) +:+ c) = String x (a +:+ (b +:+ c))).
  by rewrite IH.
Qed.

Lemma append_nil_r (a : string) : a +:+ "" = a.
Proof.
  induction a as [|x a IH]; [done|].
  change (String x (a +:+ "") = String x a). by rewrite IH.
Qed.

Lemma Join_cons (e : string) (rest : list string) (sep : string) :
  strings.Join (e :: rest) sep = e +:+ joinTail sep rest.
Proof.
  revert e. induction rest as [|e' rest IH]; intros e.
  - simpl. by rewrite append_nil_r.
  - change (strings.Join (e :: e' :: rest) sep)
      with (e +:+ sep +:+ strings.Join (e' :: rest) sep).
    by rewrite IH.
Qed.

(** ** The CREATE TABLE statement *)

Lemma columnLine_loop (col : ColumnModel) (sql : string) :
  (let sql := sql +:+ "    " +:+ types.ValueString (cm_Name col) +:+ " "
                  +:+ types.ValueString (cm_Type col) in
   if negb (types.IsNull (cm_Comment col))
      && negb (types.IsUnknown (cm_Comment col))
   then sql +:+ " COMMENT '" +:+ types.ValueString (cm_Comment col) +:+ "'"
   else sql)
  = sql +:+ columnLine col.
Proof.
  unfold columnLine. cbv zeta.
  destruct (cm_Comment col); cbn [types.IsNull types.IsUnknown negb andb
                                  types.ValueString];
    rewrite ?append_assoc, ?append_nil_r; done.
Qed.

Lemma columnsSQL_tail (i : nat) (cols : list ColumnModel) (sql : string) :
  columnsSQL (S i) cols sql
  = sql +:+ joinTail ",
" (List.map columnLine cols).
Proof.
  revert i sql. induction cols as [|col rest IH]; intros i sql.
  - simpl. by rewrite append_nil_r.
  - cbn [columnsSQL]. rewrite decide_True by lia.
    rewrite (columnLine_loop col), IH.
    cbn [List.map joinTail]. by rewrite !append_assoc.
Qed.

Lemma columnsSQL_Join (cols : list ColumnModel) (sql : string) :
  columnsSQL 0 cols sql
  = sql +:+ strings.Join (List.map columnLine cols) ",
".
Proof.
  destruct cols as [|col rest].
  - simpl. by rewrite append_nil_r.
  - cbn [columnsSQL]. rewrite decide_False by lia.
    rewrite (columnLine_loop col), columnsSQL_tail.
    cbn [List.map]. by rewrite Join_cons, !append_assoc.
Qed.

Lemma orderBySQL_tail (i : nat) (keys : list types.String) (sql : string) :
  orderBySQL (S i) keys sql
  = sql +:+ joinTail ", " (List.map types.ValueString keys).
Proof.
  revert i sql. induction keys as [|key rest IH]; intros i sql.
  - simpl. by rewrite append_nil_r.
  - cbn [orderBySQL]. rewrite decide_True by lia. rewrite IH.
    cbn [List.map joinTail]. by rewrite !append_assoc.
Qed.

Lemma orderBySQL_Join (keys : list types.String) (sql : string) :
  orderBySQL 0 keys sql
  = sql +:+ strings.Join (List.map types.ValueString keys) ", ".
Proof.
  destruct keys as [|key rest].
  - simpl. by rewrite append_nil_r.
  - cbn [orderBySQL]. rewrite decide_False by lia. rewrite orderBySQL_tail.
    cbn [List.map]. by rewrite Join_cons, !append_assoc.
Qed.

(** X1: the statement of [generateCreateTableSQL] is the header with the
    database and the table name, the lines of the columns in their order
    joined by a comma and a line break, the engine clause and, exactly when
    the order key is not empty (whatever the engine), the ORDER BY clause
    with the keys joined by ", "; a column has a COMMENT clause exactly when
    its comment is a known value. *)
Theorem generateCreateTableSQL_layout (data : TableResourceModel) :
  generateCreateTableSQL data = createTableLayout data.
Proof.
  unfold generateCreateTableSQL, createTableLayout, orderByClause, orderKeyOf.
  cbv zeta. rewrite columnsSQL_Join.
  destruct (OrderBy data) as [|key rest] eqn:Hkeys.
  - cbn [length List.map]. rewrite decide_False by lia.
    by rewrite !append_assoc, ?append_nil_r.
  - rewrite decide_True by (simpl; lia). rewrite orderBySQL_Join.
    cbn [List.map]. by rewrite !append_assoc.
Qed.

(** ** The ORDER BY clause and the parse of the sorting key *)

Lemma substring_0_length (s : string) :
  String.substring 0 (String.length s) s = s.
Proof. induction s as [|c s IH]; [done|]. simpl. by rewrite IH. Qed.

Lemma dropRune_space (k : string) :
  strings.dropRune strings.spaceRunes (String " " k) = Some k.
Proof.
  let l := eval vm_compute in strings.spaceRunes in
  change strings.spaceRunes with l.
  cbn. replace (String.prefix "" k) with true by (by destruct k).
  by rewrite Nat.sub_0_r, substring_0_length.
Qed.

Lemma TrimSpace_space (k : string) :
  strings.TrimSpace (String " " k) = strings.TrimSpace k.
Proof.
  unfold strings.TrimSpace. f_equal. unfold strings.trimLeftSpace.
  cbn [String.length strings.trimLeftRunes]. by rewrite dropRune_space.
Qed.

Lemma noSep_app (sep : ascii) (a b : string) :
  noSep sep (a +:+ b) <-> noSep sep a /\ noSep sep b.
Proof.
  unfold noSep. induction a as [|c a IH].
  - change ("" +:+ b) with b. simpl. tauto.
  - change (String c a +:+ b) with (String c (a +:+ b)). simpl. tauto.
Qed.

(** The pieces of a joined list of keys without commas: the first key, and
    each other key after the space of the separator. *)
Lemma Split_Join_comma (lead key : string) (rest : list string) :
  noSep "," lead -> noSep "," key -> Forall (noSep ",") rest ->
  strings.Split (lead +:+ strings.Join (key :: rest) ", ") ","
  = (lead +:+ key) :: List.map (String " ") rest.
Proof.
  revert lead key. induction rest as [|key' rest IH];
    intros lead key Hlead Hkey Hrest.
  - simpl. apply Split_noSep. by apply noSep_app.
  - apply Forall_cons in Hrest as [Hkey' Hrest].
    change (strings.Join (key :: key' :: rest) ", ")
      with (key +:+ String "," (" " +:+ strings.Join (key' :: rest) ", ")).
    rewrite <- append_assoc, Split_app by (by apply noSep_app).
    rewrite IH; [done| |done|done].
    unfold noSep. simpl. intros [Hc|[]]. discriminate.
Qed.

Lemma lastByte_snoc (s : string) (c : ascii) :
  lastByte (s +:+ String c "") = Some c.
Proof.
  induction s as [|a s IH]; [done|].
  change (String a s +:+ String c "") with (String a (s +:+ String c "")).
  cbn [lastByte]. rewrite IH. by destruct s.
Qed.

Lemma dropLastByte_snoc (s : string) (c : ascii) :
  dropLastByte (s +:+ String c "") = s.
Proof.
  induction s as [|a s IH]; [done|].
  change (String a s +:+ String c "") with (String a (s +:+ String c "")).
  cbn [dropLastByte]. rewrite IH. by destruct s.
Qed.

Lemma lastByte_app (a b : string) :
  b <> "" -> lastByte (a +:+ b) = lastByte b.
Proof.
  intros Hb. induction a as [|x a IH]; [done|].
  change (String x a +:+ b) with (String x (a +:+ b)).
  cbn [lastByte]. rewrite IH. destruct (a +:+ b) eqn:Hab; [|done].
  destruct a; [done|discriminate].
Qed.

Lemma bareEnds_app (a b : string) :
  a <> "" -> b <> "" -> bareEnds a -> bareEnds b -> bareEnds (a +:+ b).
Proof.
  intros Ha Hb. destruct a as [|x a]; [done|]. destruct b as [|y b]; [done|].
  intros [Hx _] [_ Hlast].
  change (String x a +:+ String y b) with (String x (a +:+ String y b)).
  split; [done|].
  change (String x (a +:+ String y b)) with (String x a +:+ String y b).
  by rewrite lastByte_app.
Qed.

Lemma bareEnds_Join (key : string) (rest : list string) :
  plainKey key -> Forall plainKey rest ->
  bareEnds (strings.Join (key :: rest) ", ")
  /\ strings.Join (key :: rest) ", " <> "".
Proof.
  revert key. induction rest as [|key' rest IH]; intros key Hkey Hrest.
  - simpl. split; by apply Hkey.
  - apply Forall_cons in Hrest as [Hkey' Hrest].
    destruct (IH key' Hkey' Hrest) as [Hbare Hne].
    change (strings.Join (key :: key' :: rest) ", ")
      with (key +:+ ", " +:+ strings.Join (key' :: rest) ", ").
    destruct Hkey as (Hk & _ & _ & Hkb).
    split.
    + rewrite <- append_assoc. apply bareEnds_app; try done.
      * by destruct key.
      * destruct key as [|x key]; [done|]. destruct Hkb as [Hx _].
        change (String x key +:+ ", ") with (String x (key +:+ ", ")).
        split; [done|].
        change (String x (key +:+ ", ")) with (String x key +:+ ", ").
        by rewrite lastByte_app.
    + by destruct key.
Qed.

Lemma parseSortingKey_Join_plain (key : string) (rest : list string) :
  Forall plainKey (key :: rest) ->
  parseSortingKey (Some (strings.Join (key :: rest) ", ")) = key :: rest
  /\ parseSortingKey (Some ("(" +:+ strings.Join (key :: rest) ", " +:+ ")"))
     = key :: rest.
Proof.
  intros Hall. pose proof Hall as Hall'.
  apply Forall_cons in Hall' as [Hkey Hrest].
  destruct (bareEnds_Join key rest Hkey Hrest) as [Hbare Hne].
  assert (List.map strings.TrimSpace
            (strings.Split (strings.Join (key :: rest) ", ") ",")
          = key :: rest) as Hpieces.
  { change (strings.Join (key :: rest) ", ")
      with ("" +:+ strings.Join (key :: rest) ", ").
    rewrite Split_Join_comma.
    - cbn [List.map]. f_equal; [by apply Hkey|].
      rewrite List.map_map. clear -Hrest.
      induction Hrest as [|k ks Hk _ IH]; [done|].
      cbn [List.map]. rewrite TrimSpace_space, IH. f_equal. by apply Hk.
    - unfold noSep. simpl. tauto.
    - by apply Hkey.
    - eapply Forall_impl; [exact Hrest|]. intros k Hk. by apply Hk. }
  assert (forall s, s <> "" -> strings.Trim s "()" = strings.Join (key :: rest) ", "
                    -> parseSortingKey (Some s) = key :: rest) as Hparse.
  { intros s Hs Htrim. unfold parseSortingKey, NullString_Valid,
      NullString_String.
    change (default "" (Some s)) with s.
    rewrite (bool_decide_eq_true_2 (is_Some (Some s))) by eauto.
    rewrite bool_decide_eq_false_2 by done. cbn [negb orb].
    rewrite Htrim, decide_False by done. exact Hpieces. }
  split.
  - apply Hparse; [done|]. by apply Trim_bareEnds.
  - apply Hparse; [done|].
    change ("(" +:+ strings.Join (key :: rest) ", " +:+ ")")
      with (String "(" (strings.Join (key :: rest) ", " +:+ ")")).
    by apply Trim_enclosed.
Qed.


Lemma parseSortingKey_Join_keys (keys : list string) :
  Forall plainKey keys ->
  parseSortingKey (Some (strings.Join keys ", ")) = keys.
Proof.
  destruct keys as [|key rest]; [done|].
  intros Hall. by apply parseSortingKey_Join_plain.
Qed.

(** X2: for a non-empty list of plain keys, the parse of the sorting key
    gives back the keys from their list joined by ", ", as the ORDER BY
    clause of [generateCreateTableSQL] writes it, with or without the
    enclosing parentheses. *)
Theorem parseSortingKey_Join (key : string) (rest : list string) :
  Forall plainKey (key :: rest) ->
  parseSortingKey (Some (strings.Join (key :: rest) ", ")) = key :: rest
  /\ parseSortingKey (Some ("(" +:+ strings.Join (key :: rest) ", " +:+ ")"))
     = key :: rest
  /\ orderByClause (key :: rest)
     = "
ORDER BY (" +:+ strings.Join (key :: rest) ", " +:+ ")".
Proof.
  intros Hall.
  destruct (parseSortingKey_Join_plain key rest Hall) as [Hbare Hwrapped].
  by repeat split.
Qed.

Lemma parseSortingKey_Join_witness :
  parseSortingKey (Some "id, ts") = ["id"; "ts"]
  /\ parseSortingKey (Some "(id, ts)") = ["id"; "ts"]
  /\ orderByClause ["id"; "ts"] = "
ORDER BY (id, ts)".
Proof.
  apply (parseSortingKey_Join "id" ["ts"]).
  repeat constructor; vm_compute; try discriminate; intuition discriminate.
Defined.

(** ** Create and Delete *)

(** X3: [Create] executes one statement, the CREATE TABLE statement of the
    plan with the database defaulted to "default".  When the execution
    fails, the state of the response is left as it was and an error is
    added; when it succeeds, no diagnostic is added and the state is the
    plan with a known database and with the ID made of the database, a dot
    and the name. *)
Theorem Create_one_statement (r : TableResource) (data : TableResourceModel)
    (diags : diag.Diagnostics) (resp : Response) :
  decoded resp (mkData data diags) ->
  let out := Create r (mkCreateRequest (mkData data diags)) resp in
  let sql := generateCreateTableSQL (withDefaultDatabase data) in
  let created := createdState data in
  snd out = [Exec sql]
  /\ match failure (client r) (Exec sql) with
     | Some msg =>
         State (fst out) = State resp
         /\ diag.HasError (Diagnostics (fst out)) = true
     | None =>
         Diagnostics (fst out) = Diagnostics resp ++ diags
         /\ State (fst out) = Some created
     end
  /\ identified created
  /\ known (Database created)
  /\ (known (Database data) -> Database created = Database data)
  /\ Name created = Name data
  /\ Engine created = Engine data
  /\ Columns created = Columns data
  /\ OrderBy created = OrderBy data.
Proof.
  intros Hdec out sql created. subst out sql created.
  unfold Create, decoded in *.
  cbn [create_Plan Get_data Get_diags] in *.
  change (diag.HasError (Diagnostics (AppendDiags resp diags)))
    with (diag.HasError (diag.Append (Diagnostics resp) diags)).
  rewrite Hdec. fold (withDefaultDatabase data).
  unfold execContext, bind. split; [|split].
  - by destruct (failure (client r) _).
  - destruct (failure (client r) _) as [msg|];
      cbn [fmap option_fmap option_map fst snd ret].
    + split; [done|]. apply HasError_AddError.
    + done.
  - unfold createdState, identified, known, withDefaultDatabase, withID,
      withDatabase.
    destruct data as [id name [| |db] engine cols keys]; cbn;
      repeat split; try done; intros [? ?]; done.
Qed.

Lemma Create_one_statement_witness :
  snd (Create (mkTableResource empty_db)
         (mkCreateRequest (mkData events_absent_comment [])) fresh)
  = [Exec events_sql].
Proof.
  apply (Create_one_statement (mkTableResource empty_db)
           events_absent_comment [] fresh).
  reflexivity.
Defined.

(** X4: on a state whose ID is its database and name, [Delete] executes
    one statement, [DROP TABLE IF EXISTS] of that ID, and leaves the state
    of the response as it was; it adds an error exactly when the execution
    fails. *)
Theorem Delete_drops_identified (r : TableResource)
    (data : TableResourceModel) (diags : diag.Diagnostics)
    (resp : Response) :
  identified data ->
  decoded resp (mkData data diags) ->
  let out := Delete r (mkDeleteRequest (mkData data diags)) resp in
  let sql := "DROP TABLE IF EXISTS " +:+ types.ValueString (ID data) in
  snd out = [Exec sql]
  /\ State (fst out) = State resp
  /\ diag.HasError (Diagnostics (fst out))
     = bool_decide (is_Some (failure (client r) (Exec sql))).
Proof.
  intros Hid Hdec out sql. subst out sql. unfold Delete, decoded in *.
  cbn [delete_State Get_data Get_diags] in *.
  change (diag.HasError (Diagnostics (AppendDiags resp diags)))
    with (diag.HasError (diag.Append (Diagnostics resp) diags)).
  rewrite Hdec. unfold dropTableSQL. rewrite Hid. unfold identity.
  unfold execContext, bind.
  destruct (failure (client r) _) as [msg|]; cbn [fmap option_fmap option_map].
  - cbn [fst snd ret]. split; [done|]. split; [done|].
    rewrite HasError_AddError. symmetry. apply bool_decide_eq_true_2. eauto.
  - cbn [fst snd ret]. split; [done|]. split; [done|].
    cbn [AppendDiags Diagnostics]. rewrite Hdec. symmetry.
    apply bool_decide_eq_false_2. by intros [? ?].
Qed.

Lemma Delete_drops_identified_witness :
  snd (Delete (mkTableResource empty_db)
         (mkDeleteRequest (mkData events_state [])) fresh)
  = [Exec "DROP TABLE IF EXISTS default.events"].
Proof.
  apply (Delete_drops_identified (mkTableResource empty_db) events_state []
           fresh); reflexivity.
Defined.

(** ** The ID of a state and the table Read looks up *)

Lemma Split_length_app (sep : ascii) (a b : string) :
  length (strings.Split (a +:+ String sep b) sep)
  = length (strings.Split a sep) + length (strings.Split b sep).
Proof.
  induction a as [|c a IH].
  - change ("" +:+ String sep b) with (String sep b). simpl.
    by rewrite decide_True.
  - change (String c a +:+ String sep b) with (String c (a +:+ String sep b)).
    simpl. case_decide.
    + simpl. by rewrite IH.
    + pose proof (Split_not_nil sep a) as Ha.
      pose proof (Split_not_nil sep (a +:+ String sep b)) as Hab.
      destruct (strings.Split a sep); [done|].
      destruct (strings.Split (a +:+ String sep b) sep); [done|].
      simpl in *. done.
Qed.

Lemma Split_length_In (sep : ascii) (s : string) :
  In sep (list_ascii_of_string s) -> 2 <= length (strings.Split s sep).
Proof.
  induction s as [|c s IH]; simpl; [done|]. intros Hin. case_decide.
  - pose proof (Split_not_nil sep s). destruct (strings.Split s sep);
      [done|simpl; lia].
  - destruct Hin as [->|Hin]; [done|]. specialize (IH Hin).
    destruct (strings.Split s sep); simpl in *; lia.
Qed.

Lemma Split_length_pos (sep : ascii) (s : string) :
  1 <= length (strings.Split s sep).
Proof.
  pose proof (Split_not_nil sep s). destruct (strings.Split s sep);
    [done|simpl; lia].
Qed.

(** X5: on a state whose ID is its database and name, neither with a dot,
    the first call of [Read] is the engine query for that database and that
    name. *)
Theorem Read_identified_target (r : TableResource)
    (data : TableResourceModel) (diags : diag.Diagnostics)
    (resp : Response) :
  identified data ->
  noDot (types.ValueString (Database data)) ->
  noDot (types.ValueString (Name data)) ->
  decoded resp (mkData data diags) ->
  exists rest,
    snd (Read r (mkReadRequest (mkData data diags)) resp)
    = SelectEngine (types.ValueString (Database data))
        (types.ValueString (Name data)) :: rest.
Proof.
  intros Hid Hd Hn Hdec. unfold Read, decoded in *.
  cbn [read_State Get_data Get_diags] in *.
  change (diag.HasError (Diagnostics (AppendDiags resp diags)))
    with (diag.HasError (diag.Append (Diagnostics resp) diags)).
  rewrite Hdec, Hid, Split_identity by done.
  unfold bind. destruct (queryEngine _ _ _) as [engine t] eqn:Hq.
  assert (t = [SelectEngine (types.ValueString (Database data))
                 (types.ValueString (Name data))]) as ->.
  { unfold queryEngine, call in Hq. by injection Hq as _ <-. }
  destruct (match engine with Ok _ => _ | Err _ => _ end) as [b t2].
  by eexists.
Qed.

Lemma Read_identified_target_witness :
  exists rest,
    snd (Read (mkTableResource empty_db) (stateOf events_state) fresh)
    = SelectEngine "default" "events" :: rest.
Proof.
  apply (Read_identified_target (mkTableResource empty_db) events_state []
           fresh).
  - reflexivity.
  - unfold noDot, noSep. simpl. intuition discriminate.
  - unfold noDot, noSep. simpl. intuition discriminate.
  - reflexivity.
Defined.

(** X6: on a state whose ID is its database and name, when the database
    or the name holds a dot, [Read] refuses the ID with the error
    "Invalid table ID" and calls the client not at all: the state that
    [Create] leaves for such a name cannot be read back. *)
Theorem Read_refuses_dotted_name (r : TableResource)
    (data : TableResourceModel) (diags : diag.Diagnostics)
    (resp : Response) :
  identified data ->
  hasDot (types.ValueString (Database data))
  \/ hasDot (types.ValueString (Name data)) ->
  decoded resp (mkData data diags) ->
  Read r (mkReadRequest (mkData data diags)) resp =
    (AddError (AppendDiags resp diags) "Invalid table ID"
       ("Expected format 'database.table', got: "
        +:+ types.ValueString (ID data)), []).
Proof.
  intros Hid Hdot Hdec. apply Read_invalid_identity; [done|].
  rewrite Hid. unfold identity.
  change ("." +:+ types.ValueString (Name data))
    with (String "."%char (types.ValueString (Name data))).
  rewrite Split_length_app.
  pose proof (Split_length_pos "." (types.ValueString (Database data))).
  pose proof (Split_length_pos "." (types.ValueString (Name data))).
  destruct Hdot as [Hdot|Hdot]; apply Split_length_In in Hdot; lia.
Qed.

Lemma Read_refuses_dotted_name_witness :
  Read (mkTableResource empty_db)
    (stateOf (mkTableResourceModel (sv "default.v1.events") (sv "v1.events")
                (sv "default") (sv "Log") [] [])) fresh =
    (AddError fresh "Invalid table ID"
       "Expected format 'database.table', got: default.v1.events", []).
Proof.
  apply (Read_refuses_dotted_name (mkTableResource empty_db)
           (mkTableResourceModel (sv "default.v1.events") (sv "v1.events")
              (sv "default") (sv "Log") [] []) [] fresh).
  - reflexivity.
  - right. unfold hasDot. simpl. tauto.
  - reflexivity.
Defined.

(** ** The calls of Read and ImportState *)

Lemma snd_bind {A B} (m : IO A) (k : A -> IO B) :
  snd (bind m k) = snd m ++ snd (k (fst m)).
Proof. destruct m as [a t]. simpl. by destruct (k a). Qed.

(** X7: when no call fails and the table exists, [Read] ends with the
    report of the comparison and stops at the first mismatch: on an engine
    mismatch it has made the engine query only, on a column mismatch the
    engine and the columns queries, and the sorting key is queried only for
    an engine of the MergeTree family whose columns match. *)
Theorem Read_fail_fast (r : TableResource) (data : TableResourceModel)
    (diags : diag.Diagnostics) (resp : Response)
    (database tableName : string) (actual : ActualTable) :
  decoded resp (mkData data diags) ->
  strings.Split (types.ValueString (ID data)) "." = [database; tableName] ->
  noFailure (client r) ->
  observed (client r) database tableName = Some actual ->
  Read r (mkReadRequest (mkData data diags)) resp =
    (report (compare data actual) data (AppendDiags resp diags),
     readCalls database tableName (compare data actual)
       (isMergeTreeFamily (at_engine actual))).
Proof.
  intros Hdec Hid Hnf Hobs.
  destruct (tableRows_observed _ _ _ _ Hobs)
    as (row & rows & Hrows & Heng & Hcols & Hkey).
  unfold Read, decoded in *. cbn [read_State Get_data Get_diags] in *.
  change (diag.HasError (Diagnostics (AppendDiags resp diags)))
    with (diag.HasError (diag.Append (Diagnostics resp) diags)).
  rewrite Hdec, Hid.
  unfold queryEngine, getTableColumns, getTableOrderBy, queryColumns,
    querySortingKey, call, compare.
  rewrite !Hnf, Hrows, Heng, Hcols, Hkey. cbn [bind ret fst snd].
  case_decide; [done|].
  cbn [bind ret fst snd].
  destruct (validateColumns _ _); [done|].
  destruct (isMergeTreeFamily _); [|done].
  cbn [bind ret fst snd]. rewrite ?Hnf.
  by destruct (validateOrderBy _ _).
Qed.

Lemma Read_fail_fast_witness :
  Read (mkTableResource (events_db "id" "ts"))
    (stateOf (withID log_state (sv "default.events"))) fresh =
    (AddError fresh "Table engine mismatch"
       "Expected engine 'Log', but table has engine 'MergeTree'",
     [SelectEngine "default" "events"]).
Proof.
  apply (Read_fail_fast (mkTableResource (events_db "id" "ts"))
           (withID log_state (sv "default.events")) [] fresh
           "default" "events"
           {| at_engine := "MergeTree";
              at_columns :=
                columnsOf (columnRows (events_db "id" "ts") "default" "events");
              at_orderKey := parseSortingKey (Some "(id, ts)") |}).
  - reflexivity.
  - reflexivity.
  - intros c. reflexivity.
  - reflexivity.
Defined.

Lemma snd_queryEngine (db : sql_DB) (database tableName : string) :
  snd (queryEngine db database tableName) = [SelectEngine database tableName].
Proof. reflexivity. Qed.

Lemma snd_getTableColumns (r : TableResource) (database tableName : string) :
  snd (getTableColumns r database tableName)
  = [SelectColumns database tableName].
Proof.
  unfold getTableColumns. rewrite snd_bind.
  unfold queryColumns, call. cbn [fst snd].
  by destruct (failure _ _).
Qed.

Lemma snd_getTableOrderBy (r : TableResource) (database tableName : string) :
  snd (getTableOrderBy r database tableName)
  = [SelectSortingKey database tableName].
Proof.
  unfold getTableOrderBy. rewrite snd_bind.
  unfold querySortingKey, call. cbn [fst snd].
  destruct (failure _ _); [done|]. by destruct (tableRows _ _ _).
Qed.

(** The parts of an identity, the empty strings when it has not two. *)
Lemma Read_reads_only_parts (r : TableResource) (req : ReadRequest)
    (resp : Response) (database tableName : string) :
  strings.Split (types.ValueString (ID (Get_data (read_State req)))) "."
  = [database; tableName] ->
  readsOnly database tableName (snd (Read r req resp)).
Proof.
  intros Hid. unfold Read, readsOnly. rewrite Hid.
  destruct (diag.HasError _); [by left|].
  rewrite snd_bind, snd_queryEngine.
  destruct (fst (queryEngine _ _ _)) as [actualEngine|err].
  2: { destruct (is_ErrNoRows err); cbn [ret snd app]; tauto. }
  case_decide; [cbn [ret snd app]; tauto|].
  rewrite snd_bind, snd_getTableColumns.
  destruct (fst (getTableColumns _ _ _)) as [actualColumns|err];
    [|cbn [ret snd app]; tauto].
  destruct (validateColumns _ _); [cbn [ret snd app]; tauto|].
  destruct (isMergeTreeFamily _); [|cbn [ret snd app]; tauto].
  rewrite snd_bind, snd_getTableOrderBy.
  destruct (fst (getTableOrderBy _ _ _)) as [actualOrderBy|err];
    [|cbn [ret snd app]; tauto].
  destruct (validateOrderBy _ _); cbn [ret snd app]; tauto.
Qed.

(** X8: whatever the state, the client and its failures, [Read] only
    reads: it makes no call at all, or the engine query, then the columns
    query, then the sorting key query, each at most once and all for one
    table; it executes no statement. *)
Theorem Read_reads_only (r : TableResource) (req : ReadRequest)
    (resp : Response) :
  exists database tableName,
    readsOnly database tableName (snd (Read r req resp)).
Proof.
  destruct (strings.Split
              (types.ValueString (ID (Get_data (read_State req)))) ".")
    as [|database [|tableName [|? ?]]] eqn:Hid.
  1,2,4: exists "", ""; left; unfold Read; rewrite Hid;
    by destruct (diag.HasError _).
  exists database, tableName. by apply Read_reads_only_parts.
Qed.

(** X9: the same holds of [ImportState], whatever the order of the range
    over the columns. *)
Theorem ImportState_reads_only (range : MapRange) (r : TableResource)
    (req : ImportStateRequest) (resp : Response) :
  exists database tableName,
    readsOnly database tableName (snd (ImportState range r req resp)).
Proof.
  unfold ImportState, readsOnly.
  destruct (strings.Split (import_ID req) ".")
    as [|database [|tableName [|? ?]]];
    try (exists "", ""; by left).
  exists database, tableName.
  destruct (_ || _); [by left|].
  rewrite snd_bind, snd_queryEngine.
  destruct (fst (queryEngine _ _ _)) as [engine|err].
  2: { destruct (is_ErrNoRows err); cbn [ret snd app]; tauto. }
  rewrite snd_bind, snd_getTableColumns.
  destruct (fst (getTableColumns _ _ _)) as [columns|err];
    [|cbn [ret snd app]; tauto].
  destruct (isMergeTreeFamily _); [|cbn [ret snd app]; tauto].
  rewrite snd_bind, snd_getTableOrderBy.
  destruct (fst (getTableOrderBy _ _ _)) as [orderByColumns|err];
    cbn [ret snd app]; tauto.
Qed.

(** ** Failures of the client *)

Ltac failed_call_leaf H :=
  first
    [ split; [apply HasError_AddError|reflexivity]
    | exfalso; destruct H as (c & Hin & Hc); cbn [ret snd app In] in Hin;
      repeat (destruct Hin as [<-|Hin]; [congruence|]); destruct Hin ].

(** X10: when a call that [Read] makes is answered with a failure, [Read]
    ends with an error and leaves the state of the response as it was: a
    failure of the client is never taken for the absence of the table, and
    never removes the resource. *)
Theorem Read_failure_keeps_state (r : TableResource) (req : ReadRequest)
    (resp : Response) :
  someCallFailed (client r) (snd (Read r req resp)) ->
  diag.HasError (Diagnostics (fst (Read r req resp))) = true
  /\ State (fst (Read r req resp)) = State resp.
Proof.
  unfold someCallFailed, Read.
  destruct (diag.HasError _) eqn:Hdec; [by intros (c & [] & _)|].
  destruct (strings.Split _ _) as [|database [|tableName [|? ?]]];
    try (by intros (c & [] & _)).
  unfold queryEngine, getTableColumns, getTableOrderBy, queryColumns,
    querySortingKey, call.
  destruct (failure (client r) (SelectEngine database tableName)) eqn:HE;
    cbn [bind ret fst snd is_ErrNoRows]; intros Hfail;
    [failed_call_leaf Hfail|].
  destruct (tableRows (client r) database tableName) as [|row rows];
    cbn [bind ret fst snd is_ErrNoRows] in *; [failed_call_leaf Hfail|].
  case_decide; cbn [bind ret fst snd] in *; [failed_call_leaf Hfail|].
  destruct (failure (client r) (SelectColumns database tableName)) eqn:HC;
    cbn [bind ret fst snd] in *; [failed_call_leaf Hfail|].
  destruct (validateColumns _ _); cbn [bind ret fst snd] in *;
    [failed_call_leaf Hfail|].
  destruct (isMergeTreeFamily _); cbn [bind ret fst snd] in *;
    [|failed_call_leaf Hfail].
  destruct (failure (client r) (SelectSortingKey database tableName)) eqn:HS;
    cbn [bind ret fst snd] in *; [failed_call_leaf Hfail|].
  destruct (validateOrderBy _ _); cbn [bind ret fst snd] in *;
    failed_call_leaf Hfail.
Qed.

Lemma Read_failure_keeps_state_witness :
  diag.HasError
    (Diagnostics
       (fst (Read (mkTableResource columns_failing_db) (stateOf events_state)
               (mkResponse [] (Some events_state))))) = true
  /\ State
       (fst (Read (mkTableResource columns_failing_db) (stateOf events_state)
               (mkResponse [] (Some events_state))))
     = Some events_state.
Proof.
  apply (Read_failure_keeps_state (mkTableResource columns_failing_db)
           (stateOf events_state) (mkResponse [] (Some events_state))).
  exists (SelectColumns "default" "events"). split.
  - vm_compute. tauto.
  - discriminate.
Defined.

(** X11: when a call that [ImportState] makes is answered with a failure,
    [ImportState] adds an error and sets no state. *)
Theorem ImportState_failure_sets_nothing (range : MapRange)
    (r : TableResource) (req : ImportStateRequest) (resp : Response) :
  someCallFailed (client r) (snd (ImportState range r req resp)) ->
  diag.HasError (Diagnostics (fst (ImportState range r req resp))) = true
  /\ State (fst (ImportState range r req resp)) = State resp.
Proof.
  unfold someCallFailed, ImportState.
  destruct (strings.Split _ _) as [|database [|tableName [|? ?]]];
    try (by intros (c & [] & _)).
  destruct (_ || _); [by intros (c & [] & _)|].
  unfold queryEngine, getTableColumns, getTableOrderBy, queryColumns,
    querySortingKey, call.
  destruct (failure (client r) (SelectEngine database tableName)) eqn:HE;
    cbn [bind ret fst snd is_ErrNoRows]; intros Hfail;
    [failed_call_leaf Hfail|].
  destruct (tableRows (client r) database tableName) as [|row rows];
    cbn [bind ret fst snd is_ErrNoRows] in *; [failed_call_leaf Hfail|].
  destruct (failure (client r) (SelectColumns database tableName)) eqn:HC;
    cbn [bind ret fst snd] in *; [failed_call_leaf Hfail|].
  destruct (isMergeTreeFamily _); cbn [bind ret fst snd] in *;
    [|failed_call_leaf Hfail].
  destruct (failure (client r) (SelectSortingKey database tableName)) eqn:HS;
    cbn [bind ret fst snd] in *; failed_call_leaf Hfail.
Qed.

Lemma ImportState_failure_sets_nothing_witness :
  diag.HasError
    (Diagnostics
       (fst (ImportState map_to_list (mkTableResource columns_failing_db)
               (mkImportStateRequest "default.events") fresh))) = true
  /\ State
       (fst (ImportState map_to_list (mkTableResource columns_failing_db)
               (mkImportStateRequest "default.events") fresh))
     = None.
Proof.
  apply (ImportState_failure_sets_nothing map_to_list
           (mkTableResource columns_failing_db)
           (mkImportStateRequest "default.events") fresh).
  exists (SelectColumns "default" "events"). split.
  - vm_compute. tauto.
  - discriminate.
Defined.

(** ** The columns map *)

Lemma columns_fold_lookup (rows : list ColumnRow)
    (m : gmap string ColumnInfo) (name : string) :
  foldl (fun (columns : gmap string ColumnInfo) row =>
           <[cr_name row := columnInfoOf row]> columns) m rows !! name
  = match last (rowsNamed name rows) with
    | Some row => Some (columnInfoOf row)
    | None => m !! name
    end.
Proof.
  revert m. induction rows as [|row rest IH]; intros m; [done|].
  cbn [foldl]. rewrite IH. unfold rowsNamed. cbn [List.filter].
  case_bool_decide as Hname.
  - destruct (List.filter _ rest) as [|row' rest'] eqn:Hrest.
    + cbn [last]. by rewrite <- Hname, lookup_insert_eq.
    + change (last (row :: row' :: rest')) with (last (row' :: rest')).
      destruct (last (row' :: rest')) eqn:Hlast; [done|].
      by apply last_None in Hlast.
  - destruct (last _); [done|]. by rewrite lookup_insert_ne.
Qed.

Lemma columns_fold_size (rows : list ColumnRow)
    (m : gmap string ColumnInfo) :
  size (foldl (fun (columns : gmap string ColumnInfo) row =>
                 <[cr_name row := columnInfoOf row]> columns) m rows)
  <= size m + length rows.
Proof.
  revert m. induction rows as [|row rest IH]; intros m; simpl; [lia|].
  etrans; [apply IH|]. rewrite map_size_insert.
  destruct (m !! cr_name row); simpl; lia.
Qed.

(** X12: [getTableColumns] makes the columns query; when it fails it
    returns the failure, and otherwise a map in which each column name
    of the table has the type and the comment of the last row of that name
    in the order of the positions, NULL comments as empty strings, and no
    other name has an entry; the map has at most as many entries as there
    are rows. *)
Theorem getTableColumns_last_row_wins (r : TableResource)
    (database tableName : string) :
  match failure (client r) (SelectColumns database tableName) with
  | Some msg =>
      getTableColumns r database tableName
      = (Err (errorString msg), [SelectColumns database tableName])
  | None =>
      exists columns : gmap string ColumnInfo,
        getTableColumns r database tableName
        = (Ok columns, [SelectColumns database tableName])
        /\ (forall name,
               columns !! name
               = columnInfoOf
                   <$> last (rowsNamed name
                               (columnRows (client r) database tableName)))
        /\ size columns
           <= length (columnRows (client r) database tableName)
  end.
Proof.
  unfold getTableColumns, queryColumns, call.
  destruct (failure _ _) as [msg|]; [done|].
  cbn [bind ret fst snd app]. eexists. split; [done|]. split.
  - intros name. unfold columnsOf. rewrite columns_fold_lookup.
    destruct (last _); [done|]. by rewrite lookup_empty.
  - unfold columnsOf. etrans; [apply columns_fold_size|].
    by rewrite map_size_empty.
Qed.

(** ** The state ImportState sets *)

Lemma Split_two_identity (id database tableName : string) :
  strings.Split id "." = [database; tableName] ->
  id = identity database tableName.
Proof.
  intros Hid. pose proof (Join_Split "." id) as Hjoin.
  rewrite Hid in Hjoin. by rewrite <- Hjoin.
Qed.

(** X13: [ImportState] either adds one error and leaves the state of the
    response as it was, or adds no diagnostic and sets a state with the
    requested ID, which is its database, a dot and its name, both not
    empty, with all values known, no column comment that is the empty
    string (a column without comment has a null comment) and, for an
    engine outside the MergeTree family, no order key. *)
Theorem ImportState_all_or_nothing (range : MapRange) (r : TableResource)
    (req : ImportStateRequest) (resp : Response) :
  (exists summary detail,
      fst (ImportState range r req resp) = AddError resp summary detail)
  \/ (exists data,
         fst (ImportState range r req resp) = State_Set resp data
         /\ importedState (import_ID req) data).
Proof.
  unfold ImportState.
  destruct (strings.Split (import_ID req) ".")
    as [|database [|tableName [|? ?]]] eqn:Hid;
    try (left; cbn [ret fst]; by eauto).
  destruct (bool_decide (database = "")) eqn:Hd;
    [left; cbn [ret fst orb]; by eauto|].
  destruct (bool_decide (tableName = "")) eqn:Ht;
    [left; cbn [ret fst orb]; by eauto|].
  cbn [orb]. apply bool_decide_eq_false in Hd, Ht.
  rewrite fst_bind.
  destruct (fst (queryEngine _ _ _)) as [engine|err].
  2: { left. destruct (is_ErrNoRows err); cbn [ret fst]; by eauto. }
  rewrite fst_bind.
  destruct (fst (getTableColumns _ _ _)) as [columns|err];
    [|left; cbn [ret fst]; by eauto].
  assert (Forall importedColumn
            (List.map (fun kv => columnModelOf (snd kv)) (range columns)))
    as Hcols.
  { apply Forall_forall. intros col [kv [<- _]]%list_elem_of_In%in_map_iff.
    unfold importedColumn, columnModelOf, known. cbn.
    repeat split; try done; case_decide; congruence. }
  apply Split_two_identity in Hid.
  destruct (isMergeTreeFamily engine) eqn:Hfamily.
  - rewrite fst_bind.
    destruct (fst (getTableOrderBy _ _ _)) as [orderByColumns|err];
      [|left; cbn [ret fst]; by eauto].
    right. cbn [ret fst]. eexists. split; [done|].
    unfold importedState, identified, known.
    cbn [ID Name Database Engine Columns OrderBy types.ValueString
           types.IsNull types.IsUnknown].
    repeat split; try done.
    + apply Forall_forall.
      by intros key [k [<- _]]%list_elem_of_In%in_map_iff.
    + congruence.
  - right. cbn [ret fst]. eexists. split; [done|].
    unfold importedState, identified, known.
    cbn [ID Name Database Engine Columns OrderBy types.ValueString
           types.IsNull types.IsUnknown].
    repeat split; done.
Qed.

(** ** Import, then Read *)

(** Each entry of the columns map is under the name of its column. *)
Lemma columnsOf_keyed (rows : list ColumnRow) (name : string)
    (col : ColumnInfo) :
  columnsOf rows !! name = Some col -> ci_Name col = name.
Proof.
  unfold columnsOf. rewrite columns_fold_lookup.
  destruct (last (rowsNamed name rows)) as [row|] eqn:Hlast;
    [|by rewrite lookup_empty].
  intros [= <-]. apply last_Some in Hlast as [l Hl].
  assert (In row (rowsNamed name rows)) as Hin.
  { rewrite Hl. apply in_or_app. right. by left. }
  unfold rowsNamed in Hin. apply filter_In in Hin as [_ Hname].
  by apply bool_decide_eq_true in Hname.
Qed.

Lemma declaredComment_columnModelOf (col : ColumnInfo) :
  declaredComment (columnModelOf col) = ci_Comment col.
Proof.
  unfold declaredComment, columnModelOf. cbn [cm_Comment].
  by case_decide.
Qed.

(** The columns built from a range over a map match the map. *)
Lemma validateColumns_range (range : MapRange)
    (columns : gmap string ColumnInfo) :
  admissible range ->
  (forall name col, columns !! name = Some col -> ci_Name col = name) ->
  validateColumns
    (List.map (fun kv => columnModelOf (snd kv)) (range columns)) columns
  = None.
Proof.
  intros Hadm Hkeyed. apply validateColumns_None. split.
  - by rewrite length_map, (Hadm columns), length_map_to_list.
  - apply Forall_forall.
    intros col [[name info] [<- Hin]]%list_elem_of_In%in_map_iff.
    apply list_elem_of_In in Hin. rewrite (Hadm columns) in Hin.
    apply elem_of_map_to_list in Hin. cbn [snd].
    exists info. unfold columnName.
    cbn [columnModelOf cm_Name cm_Type types.ValueString].
    rewrite (Hkeyed name info Hin), declaredComment_columnModelOf. done.
Qed.

(** X14: when no call fails, a [Read] of the state that [ImportState]
    set for an existing table, on the same client, finds no mismatch
    whatever the order of the range over the columns: it adds no diagnostic
    and writes the imported state back. *)
Theorem ImportState_then_Read (range : MapRange) (r : TableResource)
    (id : string) (resp resp' : Response) (database tableName : string)
    (actual : ActualTable) :
  admissible range ->
  strings.Split id "." = [database; tableName] ->
  database <> "" -> tableName <> "" ->
  noFailure (client r) ->
  observed (client r) database tableName = Some actual ->
  diag.HasError (Diagnostics resp') = false ->
  exists imported,
    fst (ImportState range r (mkImportStateRequest id) resp)
    = State_Set resp imported
    /\ fst (Read r (stateOf imported) resp')
       = State_Set (AppendDiags resp' []) imported.
Proof.
  intros Hadm Hid Hd Ht Hnf Hobs Hok.
  eexists. split.
  - by apply (ImportState_observed range r id resp database tableName actual).
  - unfold stateOf.
    rewrite (Read_observed r _ [] resp' database tableName actual);
      [|unfold decoded, diag.Append; cbn [Get_diags];
        by rewrite app_nil_r|done|done|done].
    unfold compare. cbn [Engine Columns OrderBy types.ValueString].
    rewrite decide_False by (intros Hne; by apply Hne).
    rewrite validateColumns_range; [|done|].
    + destruct (isMergeTreeFamily (at_engine actual)); [|done].
      pose proof (validateOrderBy_refl
                    (List.map types.StringValue (at_orderKey actual))) as Hv.
      rewrite List.map_map in Hv. cbn [types.ValueString] in Hv.
      rewrite List.map_id in Hv. by rewrite Hv.
    + destruct (tableRows_observed _ _ _ _ Hobs)
        as (row & rows & _ & _ & -> & _).
      apply columnsOf_keyed.
Qed.

Lemma ImportState_then_Read_witness :
  exists imported,
    fst (ImportState map_to_list (mkTableResource (events_db "ts" "id"))
           (mkImportStateRequest "default.events") fresh)
    = State_Set fresh imported
    /\ fst (Read (mkTableResource (events_db "ts" "id")) (stateOf imported)
              fresh)
       = State_Set (AppendDiags fresh []) imported.
Proof.
  apply (ImportState_then_Read map_to_list
           (mkTableResource (events_db "ts" "id")) "default.events"
           fresh fresh "default" "events"
           {| at_engine := "MergeTree";
              at_columns :=
                columnsOf (columnRows (events_db "ts" "id") "default" "events");
              at_orderKey := parseSortingKey (Some "(id, ts)") |}).
  - intros m. reflexivity.
  - reflexivity.
  - discriminate.
  - discriminate.
  - intros c. reflexivity.
  - reflexivity.
  - reflexivity.
Defined.

(** ** The MergeTree family *)

Lemma prefix_append (p s : string) :
  String.prefix p s = true <-> exists rest, s = p +:+ rest.
Proof.
  revert s. induction p as [|a p IH]; intros s.
  - split; [intros _; by exists s|by destruct s].
  - destruct s as [|b s]; simpl.
    + split; [done|]. by intros [rest ?].
    + destruct (ascii_dec a b) as [->|Hne].
      * rewrite IH. split; intros [rest Hrest]; exists rest.
        -- by rewrite Hrest.
        -- change (String b p +:+ rest) with (String b (p +:+ rest)) in Hrest.
           by injection Hrest.
      * split; [done|]. intros [rest Hrest].
        change (String a p +:+ rest) with (String a (p +:+ rest)) in Hrest.
        by injection Hrest as -> _.
Qed.

(** X15: an engine is of the MergeTree family exactly when its name
    starts with one of the seven listed names; so an engine of the family
    stays in it with anything after its name, such as its parameters, and
    no engine whose name starts with "Replicated" is of the family. *)
Theorem isMergeTreeFamily_prefix (engine suffix : string) :
  (isMergeTreeFamily engine = true
   <-> exists mt rest, In mt mergeTreeEngines /\ engine = mt +:+ rest)
  /\ (isMergeTreeFamily engine = true ->
      isMergeTreeFamily (engine +:+ suffix) = true)
  /\ isMergeTreeFamily ("Replicated" +:+ engine) = false.
Proof.
  assert (forall e, isMergeTreeFamily e = true
                    <-> exists mt rest, In mt mergeTreeEngines
                                        /\ e = mt +:+ rest) as Hiff.
  { intros e. unfold isMergeTreeFamily, strings.HasPrefix.
    rewrite existsb_exists. split.
    - intros (mt & Hin & [rest Hrest]%prefix_append). by exists mt, rest.
    - intros (mt & rest & Hin & Hrest). exists mt. split; [done|].
      apply prefix_append. by exists rest. }
  split; [apply Hiff|]. split.
  - intros (mt & rest & Hin & ->)%Hiff. apply Hiff.
    exists mt, (rest +:+ suffix). split; [done|]. by rewrite append_assoc.
  - done.
Qed.

(** ** The comparison of the order keys *)

(** X16: [validateOrderBy] returns no error exactly when the actual keys
    are the declared keys, position by position; and its index into the
    actual keys is never out of range. *)
Theorem validateOrderBy_positional (expected : list types.String)
    (actual : list string) :
  (validateOrderBy expected actual = None
   <-> List.map types.ValueString expected = actual)
  /\ validateOrderBy expected actual
     <> Some (errorString "panic: runtime error: index out of range").
Proof.
  split.
  - split; [apply validateOrderBy_None|].
    intros <-. apply validateOrderBy_refl.
  - unfold validateOrderBy. case_decide as Hlen; [discriminate|].
    intros Hv.
    destruct (validateEachOrderBy_Some _ [] actual _ Hv Hlen)
      as (i & e & a & _ & _ & _ & _ & Herr).
    discriminate Herr.
Qed.

(** ** The comparison of the columns, again *)

Lemma validateEachColumn_known_comment (expectedCols : list ColumnModel)
    (actualCols : gmap string ColumnInfo) :
  validateEachColumn (List.map withKnownComment expectedCols) actualCols
  = validateEachColumn expectedCols actualCols.
Proof.
  induction expectedCols as [|col rest IH]; [done|].
  cbn [List.map validateEachColumn]. rewrite IH.
  cbn [withKnownComment cm_Name cm_Type cm_Comment types.IsNull
         types.IsUnknown types.ValueString negb andb].
  by rewrite expectedComment_declared.
Qed.

(** X17: for [validateColumns] an absent (null or unknown) declared
    comment and a declared empty comment are the same: the result, error
    included, does not change when each declared comment is replaced by the
    known value it stands for. *)
Theorem validateColumns_known_comment (expectedCols : list ColumnModel)
    (actualCols : gmap string ColumnInfo) :
  validateColumns (List.map withKnownComment expectedCols) actualCols
  = validateColumns expectedCols actualCols.
Proof.
  unfold validateColumns.
  by rewrite length_map, validateEachColumn_known_comment.
Qed.

(** X18: [validateColumns] does not look at the order of the declared
    columns: a list of declared columns matches the actual columns exactly
    when a permutation of it does. *)
Theorem validateColumns_permutation (expectedCols expectedCols' :
    list ColumnModel) (actualCols : gmap string ColumnInfo) :
  expectedCols ≡ₚ expectedCols' ->
  validateColumns expectedCols actualCols = None
  <-> validateColumns expectedCols' actualCols = None.
Proof.
  intros Hperm. rewrite !validateColumns_None.
  by rewrite (Permutation_length Hperm), Hperm.
Qed.

Lemma validateColumns_permutation_witness :
  validateColumns (Columns events_state)
    (at_columns (actualFrom events_state)) = None
  <-> validateColumns (List.rev (Columns events_state))
        (at_columns (actualFrom events_state)) = None.
Proof.
  apply (validateColumns_permutation (Columns events_state)
           (List.rev (Columns events_state))).
  apply Permutation_rev.
Defined.

(** ** Read after Create *)

Lemma createdColumns_filter (database tableName : string) (i : nat)
    (cols : list ColumnModel) :
  List.filter
    (fun row => bool_decide (cr_database row = database)
                && bool_decide (cr_table row = tableName))
    (createdColumns database tableName i cols)
  = createdColumns database tableName i cols.
Proof.
  revert i. induction cols as [|col rest IH]; intros i; [done|].
  cbn [createdColumns List.filter cr_database cr_table].
  rewrite !bool_decide_eq_true_2 by done. cbn [andb]. by rewrite IH.
Qed.

Lemma createdColumns_entries (database tableName : string) (i : nat)
    (cols : list ColumnModel) :
  List.map (fun row => (cr_name row, columnInfoOf row))
    (createdColumns database tableName i cols)
  = List.map mirrorColumn cols.
Proof.
  revert i. induction cols as [|col rest IH]; intros i; [done|].
  cbn [createdColumns List.map]. by rewrite IH.
Qed.

Lemma createdColumns_names (database tableName : string) (i : nat)
    (cols : list ColumnModel) :
  List.map cr_name (createdColumns database tableName i cols)
  = List.map columnName cols.
Proof.
  revert i. induction cols as [|col rest IH]; intros i; [done|].
  cbn [createdColumns List.map cr_name]. by rewrite IH.
Qed.

(** The table after its creation has the engine and the columns of the
    mirror of the state, and the parse of the joined keys as order key. *)
Lemma observed_createdDB_parse (data : TableResourceModel) :
  NoDup (columnNames data) ->
  observed (createdDB data) (types.ValueString (Database data))
    (types.ValueString (Name data))
  = Some (withOrderKey (actualFrom data)
            (parseSortingKey (Some (strings.Join (orderKeyOf data) ", ")))).
Proof.
  intros Hnodup. unfold observed, tableRows, columnRows, createdDB.
  cbn [system_tables system_columns List.filter tr_database tr_name].
  rewrite !bool_decide_eq_true_2 by done.
  cbn [andb tr_engine tr_sorting_key].
  rewrite createdColumns_filter.
  unfold actualFrom, withOrderKey. cbn [at_engine at_columns].
  f_equal. f_equal.
  set (rows := createdColumns _ _ 0 (Columns data)).
  assert (byPosition rows ≡ₚ rows) as Hperm
      by apply merge_sort_Permutation.
  assert (NoDup (List.map cr_name rows)) as Hrows.
  { subst rows. by rewrite createdColumns_names. }
  rewrite columnsOf_list_to_map.
  - rewrite <- (createdColumns_entries
                  (types.ValueString (Database data))
                  (types.ValueString (Name data)) 0 (Columns data)).
    fold rows. apply list_to_map_proper.
    + rewrite <- list_fmap_compose.
      change (NoDup (List.map cr_name (byPosition rows))).
      by rewrite Hperm.
    + change (List.map (fun row => (cr_name row, columnInfoOf row))
                (byPosition rows)
              ≡ₚ List.map (fun row => (cr_name row, columnInfoOf row)) rows).
      by rewrite Hperm.
  - by rewrite Hperm.
Qed.

(** It is the mirror of the state when the keys are plain. *)
Lemma observed_createdDB (data : TableResourceModel) :
  NoDup (columnNames data) ->
  Forall plainKey (orderKeyOf data) ->
  observed (createdDB data) (types.ValueString (Database data))
    (types.ValueString (Name data))
  = Some (actualFrom data).
Proof.
  intros Hnodup Hkeys.
  rewrite observed_createdDB_parse, parseSortingKey_Join_keys by done.
  by destruct data.
Qed.

(** X19: a [Read] right after the creation finds no mismatch.  For a
    state whose ID is its database and name, neither with a dot, with
    distinct column names and plain keys, on a client that shows the table
    as its CREATE TABLE statement makes it, [Read] adds no diagnostic and
    writes the state back; [Create] sets such a state. *)
Theorem Read_after_Create (data : TableResourceModel) (resp : Response) :
  identified data ->
  noDot (types.ValueString (Database data)) ->
  noDot (types.ValueString (Name data)) ->
  NoDup (columnNames data) ->
  Forall plainKey (orderKeyOf data) ->
  diag.HasError (Diagnostics resp) = false ->
  fst (Read (mkTableResource (createdDB data)) (stateOf data) resp)
  = State_Set (AppendDiags resp []) data.
Proof.
  intros Hid Hd Hn Hnodup Hkeys Hok. unfold stateOf.
  apply (Read_mirror (mkTableResource (createdDB data)) data [] resp
           (types.ValueString (Database data))
           (types.ValueString (Name data))).
  - done.
  - unfold decoded, diag.Append. cbn [Get_diags]. by rewrite app_nil_r.
  - rewrite Hid. by apply Split_identity.
  - by intros c.
  - by apply observed_createdDB.
Qed.

Lemma Read_after_Create_witness :
  fst (Read (mkTableResource (createdDB events_state))
         (stateOf events_state) fresh)
  = State_Set (AppendDiags fresh []) events_state.
Proof.
  apply (Read_after_Create events_state fresh).
  - reflexivity.
  - unfold noDot, noSep. simpl. intuition discriminate.
  - unfold noDot, noSep. simpl. intuition discriminate.
  - apply (bool_decide_unpack _). vm_compute. exact I.
  - repeat constructor; vm_compute; try discriminate; intuition discriminate.
  - reflexivity.
Defined.

(** ** A key that ends with a parenthesis *)

Lemma length_append (a b : string) :
  String.length (a +:+ b) = String.length a + String.length b.
Proof.
  induction a as [|x a IH]; [done|].
  change (String x a +:+ b) with (String x (a +:+ b)). simpl. by rewrite IH.
Qed.

Lemma length_substring_le (n m : nat) (s : string) :
  String.length (String.substring n m s) <= String.length s.
Proof.
  revert n m. induction s as [|c s IH]; intros n m.
  - by destruct n, m.
  - destruct n as [|n]; [destruct m as [|m]|]; simpl.
    + lia.
    + specialize (IH 0 m). lia.
    + specialize (IH n m). lia.
Qed.

Lemma dropRune_length (runes : list string) (s rest : string) :
  strings.dropRune runes s = Some rest ->
  String.length rest <= String.length s.
Proof.
  induction runes as [|rune runes IH]; [done|]. simpl.
  destruct (String.prefix rune s); [|done].
  intros [= <-]. apply length_substring_le.
Qed.

Lemma trimLeftRunes_length (runes : list string) (fuel : nat) (s : string) :
  String.length (strings.trimLeftRunes runes fuel s) <= String.length s.
Proof.
  revert s. induction fuel as [|fuel IH]; intros s; simpl; [done|].
  destruct (strings.dropRune runes s) as [rest|] eqn:Hdrop; [|done].
  etrans; [apply IH|]. by eapply dropRune_length.
Qed.

Lemma length_string_of_list_ascii (l : list ascii) :
  String.length (string_of_list_ascii l) = length l.
Proof. induction l as [|c l IH]; simpl; [done|]. by rewrite IH. Qed.

Lemma length_list_ascii_of_string (s : string) :
  length (list_ascii_of_string s) = String.length s.
Proof. induction s as [|c s IH]; simpl; [done|]. by rewrite IH. Qed.

Lemma rev_length (s : string) :
  String.length (strings.rev s) = String.length s.
Proof.
  unfold strings.rev.
  by rewrite length_string_of_list_ascii, length_rev,
    length_list_ascii_of_string.
Qed.

Lemma TrimSpace_length (s : string) :
  String.length (strings.TrimSpace s) <= String.length s.
Proof.
  unfold strings.TrimSpace, strings.trimRightSpace, strings.trimLeftSpace.
  rewrite rev_length. etrans; [apply trimLeftRunes_length|].
  rewrite rev_length. apply trimLeftRunes_length.
Qed.

Lemma TrimLeft_length (s cutset : string) :
  String.length (strings.TrimLeft s cutset) <= String.length s.
Proof.
  induction s as [|c s IH]; simpl; [done|].
  destruct (strings.inCutset c cutset); simpl; lia.
Qed.

Lemma TrimRight_length (s cutset : string) :
  String.length (strings.TrimRight s cutset) <= String.length s.
Proof.
  induction s as [|c s IH]; simpl; [done|].
  destruct (strings.TrimRight s cutset); simpl in *;
    [destruct (strings.inCutset c cutset); simpl; lia|lia].
Qed.

Lemma Trim_length_lt (key : string) (c : ascii) (cutset : string) :
  lastByte key = Some c ->
  strings.inCutset c cutset = true ->
  String.length (strings.Trim key cutset) < String.length key.
Proof.
  intros Hlast Hc.
  destruct (string_snoc key) as [->|(init & d & Heq & Hd & _)]; [done|].
  rewrite Hd in Hlast. injection Hlast as ->. rewrite Heq.
  unfold strings.Trim. rewrite TrimRight_drop by done.
  pose proof (TrimLeft_length (strings.TrimRight init cutset) cutset).
  pose proof (TrimRight_length init cutset).
  rewrite length_append. simpl. lia.
Qed.

(** The parse of a key that ends with a parenthesis is not that key. *)
Lemma parseSortingKey_paren_end (key : string) (c : ascii) :
  lastByte key = Some c -> isParen c = true ->
  parseSortingKey (Some key) <> [key].
Proof.
  intros Hlast Hc Hparse.
  pose proof (Trim_length_lt key c "()" Hlast Hc) as Hlt.
  unfold parseSortingKey, NullString_Valid, NullString_String in Hparse.
  change (default "" (Some key)) with key in Hparse.
  destruct (negb _ || _); [done|].
  case_decide; [done|].
  pose proof (Join_Split "," (strings.Trim key "()")) as Hjoin.
  destruct (strings.Split (strings.Trim key "()") ",") as [|piece [|? ?]];
    [done| |done].
  simpl in Hjoin, Hparse. injection Hparse as Hpiece.
  pose proof (TrimSpace_length piece). rewrite Hpiece, Hjoin in *. lia.
Qed.

(** X20: a [Read] right after the creation reports a mismatch when the
    only key ends with a parenthesis, as the key of a function call does.
    For a state whose ID is its database and name, neither with a dot, with
    distinct column names, an engine of the MergeTree family and one key
    that ends with a parenthesis, on a client that shows the table as its
    CREATE TABLE statement makes it, [Read] adds the error
    "Table ORDER BY mismatch". *)
Theorem Read_after_Create_paren_key (data : TableResourceModel)
    (resp : Response) (key : types.String) (c : ascii) :
  identified data ->
  noDot (types.ValueString (Database data)) ->
  noDot (types.ValueString (Name data)) ->
  NoDup (columnNames data) ->
  isMergeTreeFamily (types.ValueString (Engine data)) = true ->
  OrderBy data = [key] ->
  lastByte (types.ValueString key) = Some c -> isParen c = true ->
  diag.HasError (Diagnostics resp) = false ->
  exists err,
    fst (Read (mkTableResource (createdDB data)) (stateOf data) resp)
    = AddError (AppendDiags resp []) "Table ORDER BY mismatch"
        ("Table ORDER BY does not match configuration: " +:+ Error err).
Proof.
  intros Hid Hd Hn Hnodup Hfamily Hkeys Hlast Hc Hok. unfold stateOf.
  rewrite (Read_observed (mkTableResource (createdDB data)) data [] resp
             (types.ValueString (Database data))
             (types.ValueString (Name data))
             (withOrderKey (actualFrom data)
                (parseSortingKey
                   (Some (strings.Join (orderKeyOf data) ", "))))).
  - unfold compare, withOrderKey, actualFrom.
    cbn [at_engine at_columns at_orderKey].
    rewrite decide_False by (intros Hne; by apply Hne).
    rewrite (validateColumns_mirror (Columns data) Hnodup), Hfamily.
    unfold orderKeyOf. rewrite Hkeys. cbn [List.map strings.Join].
    destruct (validateOrderBy [key] _) as [err|] eqn:Hv; [by exists err|].
    apply validateOrderBy_None in Hv. symmetry in Hv.
    by apply (parseSortingKey_paren_end _ c) in Hv.
  - unfold decoded, diag.Append. cbn [Get_diags]. by rewrite app_nil_r.
  - rewrite Hid. by apply Split_identity.
  - by intros call.
  - by apply observed_createdDB_parse.
Qed.

Lemma Read_after_Create_paren_key_witness :
  exists err,
    fst (Read (mkTableResource (createdDB daily_state)) (stateOf daily_state)
           fresh)
    = AddError (AppendDiags fresh []) "Table ORDER BY mismatch"
        ("Table ORDER BY does not match configuration: " +:+ Error err).
Proof.
  apply (Read_after_Create_paren_key daily_state fresh (sv "toDate(ts)")
           ")"%char).
  - reflexivity.
  - unfold noDot, noSep. simpl. intuition discriminate.
  - unfold noDot, noSep. simpl. intuition discriminate.
  - apply (bool_decide_unpack _). vm_compute. exact I.
  - reflexivity.
  - reflexivity.
  - reflexivity.
  - reflexivity.
  - reflexivity.
Defined.
